(** * tox-pdm, plugin for tox 3: a shallow embedding of [tox_pdm/plugin3.py]

    The plugin is a set of hook functions that the host runner (tox) calls.
    Every hook works on shared Python objects (the lists stored in the
    environment configuration, the session object, the class attribute
    [VirtualEnv.getcommandpath]), on the file system and on subprocesses.
    The embedding threads one [World] through a state-and-exception monad:
    a Python exception is an outcome [Raise e] that keeps the state reached
    when it was raised.

    The helpers of [tox_pdm/utils.py] and the subprocesses are not part of
    the embedded file; they are variables of the section that holds the
    hooks.  The [action] argument of the hooks shows in the events that the
    run reports.  [tox_addoption] and [tox_runtest_pre] only register
    options and call [utils.inject_pdm_to_commands]; they are not
    embedded. *)

From Stdlib Require Import Ascii.
From stdpp Require Import gmap strings list fin_maps.

Set Warnings "-register-all".
Local Open Scope string_scope.
Local Open Scope list_scope.

(** ** Paths and the file system *)

(** A path is the list of its components below the root:
    [os.path.join(d, n)] is [d ++ [n]], [os.path.dirname] is [removelast]. *)
Abbreviation path := (list string).

(** [str(p)] for a [py.path.local]. *)
Definition str (p : path) : string := "/" +:+ String.concat "/" p.

Module Fs.

(** A file-system tree: a file, or a directory with named entries.  The
  order of [map_to_list] stands for the order in which the operating
  system lists a directory. *)
Inductive node := File | Dir (es : gmap string node).

Fixpoint lookup_path (p : path) (t : node) : option node :=
match p with
| [] => Some t
| n :: p' =>
    match t with
    | Dir es => es !! n ≫= lookup_path p'
    | File => None
    end
end.

(** [os.path.exists] *)
Definition exists_ (p : path) (t : node) : bool :=
bool_decide (is_Some (lookup_path p t)).

(** [os.path.isdir] *)
Definition isdir (p : path) (t : node) : bool :=
match lookup_path p t with Some (Dir _) => true | _ => false end.

(** [os.listdir]: [None] when [p] is not a directory. *)
Definition listdir (p : path) (t : node) : option (list string) :=
match lookup_path p t with
| Some (Dir es) => Some (map_to_list es).*1
| _ => None
end.

(** Rewrites the entries of the directory [d]; [None] when [d] is not a
  directory. *)
Fixpoint update_dir (f : gmap string node → gmap string node)
  (d : path) (t : node) {struct d} : option node :=
match t with
| File => None
| Dir es =>
    match d with
    | [] => Some (Dir (f es))
    | n :: d' =>
        c ← es !! n; c' ← update_dir f d' c; Some (Dir (<[n:=c']> es))
    end
end.

(** [os.makedirs(p, exist_ok=True)]: creates the missing directories along
  [p]; [None] when a component is a file. *)
Fixpoint makedirs (p : path) (t : node) {struct p} : option node :=
match t with
| File => None
| Dir es =>
    match p with
    | [] => Some t
    | n :: p' =>
        c' ← makedirs p' (default (Dir ∅) (es !! n)); Some (Dir (<[n:=c']> es))
    end
end.

(** Splits a path into its directory and its base name. *)
Fixpoint split_last (p : path) : option (path * string) :=
match p with
| [] => None
| [n] => Some ([], n)
| n :: p' => prod_map (cons n) id <$> split_last p'
end.

(** Removes the entry at [p] with everything below it. *)
Definition remove (p : path) (t : node) : option node :=
'(d, n) ← split_last p; update_dir (delete n) d t.

(** Binds the entry at [p] to [x]; the directory of [p] must exist. *)
Definition put (p : path) (x : node) (t : node) : option node :=
'(d, n) ← split_last p; update_dir (<[n:=x]>) d t.

(** [shutil.move(src, dst)] on a POSIX file system without links: [None]
  stands for the [OSError] it raises, in which case nothing has changed.
  - a destination that is a directory receives the source under its base
    name, and it is an error if that name is taken;
  - a file is renamed over a missing or plain-file destination whose
    directory exists;
  - a directory cannot move below itself nor over a file; when the rename
    fails for a missing parent, the copy fallback creates the parents. *)
Definition move_target (src dst : path) (t : node) : option path :=
if isdir dst t then
  match split_last src with
  | Some (_, n) => if exists_ (dst ++ [n]) t then None else Some (dst ++ [n])
  | None => None
  end
else Some dst.

Definition shutil_move (src dst : path) (t : node) : option node :=
match lookup_path src t with
| None => None
| Some x =>
    if isdir dst t && bool_decide (src = dst) then Some t else
    match move_target src dst t with
    | None => None
    | Some real =>
        match split_last real, x with
        | None, _ => None
        | Some (d, _), File =>
            if isdir d t then t1 ← remove src t; put real File t1 else None
        | Some (d, _), Dir _ =>
            if bool_decide (src `prefix_of` real) || exists_ real t then None
            else t1 ← remove src t; t2 ← makedirs d t1; put real x t2
        end
    end
end.

(** [fnmatch.fnmatchcase] for patterns made of literals, [?] and [*]. *)
Fixpoint fnmatch_list (pat s : list Ascii.ascii) : bool :=
match pat with
| [] => match s with [] => true | _ => false end
| c :: pat' =>
    if decide (c = "*"%char) then
      (fix star (s : list Ascii.ascii) : bool :=
         fnmatch_list pat' s ||
         match s with [] => false | _ :: s' => star s' end) s
    else
      match s with
      | [] => false
      | d :: s' =>
          (bool_decide (c = d) || bool_decide (c = "?"%char))
          && fnmatch_list pat' s'
      end
end.

Definition fnmatch (name pat : string) : bool :=
fnmatch_list (String.list_ascii_of_string pat)
             (String.list_ascii_of_string name).

(** [py.path.local.visit(fil)]: depth first, the matches inside the
  sub-directories before those of the directory itself, each directory in
  listing order. *)
Fixpoint visit_gen (fil : string) (p : path) (t : node) : list path :=
match t with
| File => []
| Dir es =>
    map_fold (λ n c acc,
      match c with Dir _ => visit_gen fil (p ++ [n]) c | File => [] end ++ acc)
      [] es
    ++ omap (λ e, if fnmatch e.1 fil then Some (p ++ [e.1]) else None)
            (map_to_list es)
end.

(** [None] when [p] is not a directory (listing it raises). *)
Definition visit (fil : string) (p : path) (t : node) : option (list path) :=
match lookup_path p t with
| Some (Dir es) => Some (visit_gen fil p (Dir es))
| _ => None
end.

End Fs.

Export Fs.


(** ** Python objects and the state of a run *)

(** The exceptions that reach the hooks.  [OSError] covers its subclasses
    ([FileNotFoundError], [shutil.Error], [py.error.ENOENT], ...);
    [InvocationError] is what the host raises for a failed subprocess. *)
Inductive exn := TypeError | ValueError | StopIteration | OSError | InvocationError.

Inductive outcome (A : Type) := Ret (a : A) | Raise (e : exn).
Arguments Ret {A} a.
Arguments Raise {A} e.

(** A Python list is an object on the heap; variables and attributes hold
    its address, so two names for one list see each other's updates. *)
Abbreviation loc := positive.

(** [tox.config.Config], the fields the plugin reads; [pdm] is
    [config.option.pdm]. *)
Record Config := {
  pdm : string;
  toxinidir : path;
  toxworkdir : path;
  isolated_build_env : string;
  skipsdist : bool;
  temp_dir : path;
}.

(** [venv.envconfig]: [groups] is absent ([None]) or a list object; the two
    command lists are list objects that the hooks update in place. *)
Record EnvConfig := {
  config : Config;
  groups : option loc;
  skip_install : bool;
  install_command : loc;
  list_dependencies_command : loc;
}.

(** [tox.venv.VirtualEnv]; [venv_path] is [venv.path], [interpreter] is what
    [venv.getsupportedinterpreter()] returns and [resolved_dependencies]
    what [venv.get_resolved_dependencies()] returns. *)
Record VirtualEnv := {
  venv_path : path;
  envconfig : EnvConfig;
  interpreter : string;
  resolved_dependencies : list string;
}.

Definition getsupportedinterpreter (venv : VirtualEnv) : string :=
  interpreter venv.

Definition get_resolved_dependencies (venv : VirtualEnv) : list string :=
  resolved_dependencies venv.

Record Session := { session_config : Config }.

(** What the run reports: [reporter.info], [action.setactivity], the
    opening of an action, the argument vector that the plugin hands to
    [venv._pcall] with its working directory, and the install command and
    dependencies with which the host runs its own [venv._install]. *)
Inductive event :=
  | Info (msg : string)
  | Activity (name : string) (msg : list string)
  | NewAction (name : string)
  | Pcall (args : list string) (cwd : path)
  | HostInstall (cmd deps : list string).

(** The state shared by the hooks.  [getcommandpath] is the class attribute
    [VirtualEnv.getcommandpath], applied to [self] and the command name;
    [session_package] and [session_dist] are the attributes of the session
    object, [None] while the attribute does not exist. *)
Record World := mkWorld {
  fs : node;
  heap : gmap loc (list string);
  getcommandpath : VirtualEnv → string → string;
  session_package : option path;
  session_dist : option path;
  held_locks : list path;
  trace : list event;
}.

Definition set_fs (t : node) (w : World) : World :=
  mkWorld t (heap w) (getcommandpath w) (session_package w) (session_dist w)
          (held_locks w) (trace w).
Definition set_heap (h : gmap loc (list string)) (w : World) : World :=
  mkWorld (fs w) h (getcommandpath w) (session_package w) (session_dist w)
          (held_locks w) (trace w).
Definition set_getcommandpath (g : VirtualEnv → string → string) (w : World) : World :=
  mkWorld (fs w) (heap w) g (session_package w) (session_dist w)
          (held_locks w) (trace w).
Definition set_session (p d : option path) (w : World) : World :=
  mkWorld (fs w) (heap w) (getcommandpath w) p d (held_locks w) (trace w).
Definition set_held_locks (l : list path) (w : World) : World :=
  mkWorld (fs w) (heap w) (getcommandpath w) (session_package w) (session_dist w)
          l (trace w).
Definition emit (e : event) (w : World) : World :=
  mkWorld (fs w) (heap w) (getcommandpath w) (session_package w) (session_dist w)
          (held_locks w) (trace w ++ [e]).

(** The argument vectors that the plugin has handed to [_pcall] so far;
    the host's own install command is a [HostInstall] event. *)
Definition pcalls (w : World) : list (list string) :=
  omap (λ e, match e with Pcall args _ => Some args | _ => None end) (trace w).

(** ** The monad of the hooks *)

Definition M (A : Type) : Type := World → outcome A * World.

Definition ret {A} (a : A) : M A := λ w, (Ret a, w).
Definition bind {A B} (m : M A) (k : A → M B) : M B :=
  λ w, match m w with
       | (Ret a, w') => k a w'
       | (Raise e, w') => (Raise e, w')
       end.
Definition raise {A} (e : exn) : M A := λ w, (Raise e, w).
Definition get_world : M World := λ w, (Ret w, w).
Definition modify (f : World → World) : M unit := λ w, (Ret tt, f w).

(** [try: body finally: fin], for a [fin] that does not raise. *)
Definition try_finally {A} (body : M A) (fin : World → World) : M A :=
  λ w, let '(r, w') := body w in (r, fin w').

(** A file-system operation that raises [OSError] when it fails. *)
Definition lift_fs (f : node → option node) : M unit :=
  λ w, match f (fs w) with
       | Some t => (Ret tt, set_fs t w)
       | None => (Raise OSError, w)
       end.

Declare Scope py_scope.
Delimit Scope py_scope with py.
Notation "x <- m ;; k" := (bind m (λ x, k))
  (at level 100, m at next level, right associativity) : py_scope.
Notation "m ;; k" := (bind m (λ _, k))
  (at level 100, right associativity) : py_scope.
Local Open Scope py_scope.

Fixpoint for_each {A} (l : list A) (body : A → M unit) : M unit :=
  match l with
  | [] => ret tt
  | x :: l' => body x ;; for_each l' body
  end.

(** [n] successive calls of one hook. *)
Fixpoint invocations {A} (n : nat) (hook : M A) : M unit :=
  match n with
  | 0 => ret tt
  | S n' => hook ;; invocations n' hook
  end.

(** *** Python lists *)

Definition truthy {A} (l : list A) : bool :=
  match l with [] => false | _ => true end.

Definition py_read (l : loc) : M (list string) :=
  λ w, (Ret (default [] (heap w !! l)), w).
Definition py_write (l : loc) (v : list string) : M unit :=
  modify (λ w, set_heap (<[l:=v]> (heap w)) w).
(** A list display [[...]] builds a new object. *)
Definition py_new (v : list string) : M loc :=
  λ w, let l := fresh (dom (heap w)) in (Ret l, set_heap (<[l:=v]> (heap w)) w).

(** [list.remove(x)]: drops the first item equal to [x]. *)
Fixpoint remove_first (x : string) (l : list string) : option (list string) :=
  match l with
  | [] => None
  | y :: l' => if decide (x = y) then Some l' else cons y <$> remove_first x l'
  end.

Definition py_remove (l : loc) (x : string) : M unit :=
  v <- py_read l ;;
  match remove_first x v with
  | Some v' => py_write l v'
  | None => raise ValueError
  end.

Definition py_extend (l : loc) (xs : list string) : M unit :=
  v <- py_read l ;; py_write l (v ++ xs).

(** [o or []] *)
Definition or_empty (o : option loc) : M loc :=
  match o with
  | None => py_new []
  | Some l => v <- py_read l ;; if truthy v then ret l else py_new []
  end.

(** [for i, arg in enumerate(cmd): if arg == "python": cmd[i] = interp];
    the length of [cmd] does not change during the loop. *)
Definition patch_python (cmd : loc) (interp : string) : M unit :=
  v <- py_read cmd ;;
  for_each (seq 0 (length v)) (λ i,
    cur <- py_read cmd ;;
    if bool_decide (cur !! i = Some "python")
    then py_write cmd (<[i:=interp]> cur)
    else ret tt).

(** *** The host's reporter, actions and locks *)

Definition reporter_info (msg : string) : M unit := modify (emit (Info msg)).
Definition setactivity (name : string) (msg : list string) : M unit :=
  modify (emit (Activity name msg)).
Definition new_action (name : string) : M unit := modify (emit (NewAction name)).

(** The lock file is created if missing; a directory in its place is an
    error. *)
Definition touch (p : path) (t : node) : option node :=
  if isdir p t then None else put p File t.

(** [with hold_lock(lock_file, ...): body]: the directory of the lock file
    is ensured and the lock is taken; it is released on every exit. *)
Definition acquire_lock (lock_file : path) : M unit :=
  lift_fs (makedirs (removelast lock_file)) ;;
  lift_fs (touch lock_file) ;;
  modify (λ w, set_held_locks (lock_file :: held_locks w) w).

Definition release_lock (lock_file : path) (w : World) : World :=
  set_held_locks (filter (λ l, l ≠ lock_file) (held_locks w)) w.

Definition hold_lock {A} (lock_file : path) (body : M A) : M A :=
  acquire_lock lock_file ;;
  try_finally body (release_lock lock_file).

(** [tox.util.path.ensure_empty_dir]: an existing path is reported, removed
    with errors ignored, and created again as a directory; a missing path
    is left missing. *)
Definition ensure_empty_dir (p : path) : M unit :=
  w <- get_world ;;
  if exists_ p (fs w) then
    reporter_info ("  removing " +:+ str p) ;;
    modify (λ w, set_fs (default (fs w) (if isdir p (fs w) then remove p (fs w) else None)) w) ;;
    lift_fs (makedirs p)
  else ret tt.

(** [next(it)] for the iterator of a [visit]. *)
Definition next (it : option (list path)) : M path :=
  match it with
  | None => raise OSError
  | Some [] => raise StopIteration
  | Some (p :: _) => ret p
  end.

(** ** A concrete project

    A small project under [/proj] with one test environment [py], used to
    run the hooks on explicit inputs.  [pdm build] leaves one source
    archive in the build directory; the other subprocesses and the helpers
    leave the file system as it is. *)

Module Demo.

Definition demo_config (skipsdist : bool) : Config := {|
  pdm := "pdm";
  toxinidir := ["proj"];
  toxworkdir := ["proj"; ".tox"];
  isolated_build_env := ".package";
  skipsdist := skipsdist;
  temp_dir := ["proj"; ".tox"; ".tmp"];
|}.

Definition demo_envconfig (skipsdist skip_install : bool) : EnvConfig := {|
  config := demo_config skipsdist;
  groups := Some 1%positive;
  skip_install := skip_install;
  install_command := 2%positive;
  list_dependencies_command := 3%positive;
|}.

Definition demo_venv (skipsdist skip_install : bool) : VirtualEnv := {|
  venv_path := ["proj"; ".tox"; "py"];
  envconfig := demo_envconfig skipsdist skip_install;
  interpreter := "/proj/.tox/py/bin/python";
  resolved_dependencies := [];
|}.

(** A second test environment of the same project, with its own
    interpreter. *)
Definition demo_venv_other : VirtualEnv := {|
  venv_path := ["proj"; ".tox"; "lint"];
  envconfig := demo_envconfig false false;
  interpreter := "/proj/.tox/lint/bin/python";
  resolved_dependencies := [];
|}.

(** The environment [py] with two dependencies that the host tracks. *)
Definition demo_venv_tracked : VirtualEnv := {|
  venv_path := ["proj"; ".tox"; "py"];
  envconfig := demo_envconfig false false;
  interpreter := "/proj/.tox/py/bin/python";
  resolved_dependencies := ["pytest"; "coverage"];
|}.

Definition demo_session (skipsdist : bool) : Session :=
  {| session_config := demo_config skipsdist |}.

(** With [scripts] the library directory holds two scripts, a file and a
    directory, and the sibling scripts directory exists; without it the
    library directory holds one script file and there is no scripts
    directory. *)
Definition demo_scripts : gmap string node :=
  {[ "black" := File; "tools" := Dir {[ "run" := File ]} ]}.

Definition demo_fs (scripts : bool) : node :=
  let pkgs : gmap string node :=
    if scripts
    then {[ "lib" := Dir {[ "bin" := Dir demo_scripts ]}; "bin" := Dir ∅ ]}
    else {[ "lib" := Dir {[ "bin" := Dir {[ "black" := File ]} ]} ]} in
  Dir {[ "proj" := Dir {[ "pyproject.toml" := File;
                          ".tox" := Dir {[ "py" := Dir pkgs ]} ]} ]}.

(** The project with both scripts in the library directory, and a scripts
    directory that already holds the entries [old]. *)
Definition demo_fs_scripts (old : gmap string node) : node :=
  Dir {[ "proj" :=
           Dir {[ "pyproject.toml" := File;
                  ".tox" :=
                    Dir {[ "py" :=
                             Dir {[ "lib" := Dir {[ "bin" := Dir demo_scripts ]};
                                    "bin" := Dir old ]} ]} ]} ]}.

(** The groups list is the object at address 1, the install command the
    one at 2, the dependency-listing command the one at 3; every command
    name resolves below [/usr/bin]. *)
Definition demo_world (scripts : bool) (gs : list string) : World := {|
  fs := demo_fs scripts;
  heap := {[ 1%positive := gs;
             2%positive := ["python"; "-m"; "pip"; "install"];
             3%positive := ["python"; "-m"; "pip"; "freeze"] ]};
  getcommandpath := λ _ cmd, "/usr/bin/" +:+ cmd;
  session_package := None;
  session_dist := None;
  held_locks := [];
  trace := [];
|}.

Definition demo_popen (argv : list string) (cwd : path) (t : node)
    : option node :=
  match argv with
  | _ :: "build" :: _ =>
      t1 ← makedirs ["proj"; ".tox"; ".package"] t;
      put ["proj"; ".tox"; ".package"; "demo-0.1.tar.gz"] File t1
  | _ => Some t
  end.

(** A build that creates the build directory and leaves it empty. *)
Definition demo_popen_no_archive (argv : list string) (cwd : path) (t : node)
    : option node :=
  match argv with
  | _ :: "build" :: _ => makedirs ["proj"; ".tox"; ".package"] t
  | _ => Some t
  end.

(** A build that leaves the archive of an earlier version in a
    sub-directory of the build directory, next to the new archive. *)
Definition demo_popen_nested (argv : list string) (cwd : path) (t : node)
    : option node :=
  match argv with
  | _ :: "build" :: _ =>
      t1 ← makedirs ["proj"; ".tox"; ".package"; "old"] t;
      t2 ← put ["proj"; ".tox"; ".package"; "old"; "demo-0.0.tar.gz"] File t1;
      put ["proj"; ".tox"; ".package"; "demo-0.1.tar.gz"] File t2
  | _ => Some t
  end.

(** An external tool that completes without writing anything, not even
    the build directory. *)
Definition demo_popen_idle (argv : list string) (cwd : path) (t : node)
    : option node := Some t.

(** An external tool that always exits with a failure. *)
Definition demo_popen_failing (argv : list string) (cwd : path) (t : node)
    : option node := None.

Definition demo_clone_pdm_files (env_path root : string) (t : node)
    : option node := Some t.

Definition demo_get_env_lib_path (pdm : string) (p : path) : path :=
  p ++ ["lib"].

Definition demo_host_install (cmd deps : list string) (t : node)
    : option node := Some t.

Definition demo_create_session_view (package temp_dir : path) (t : node)
    : option (path * node) :=
  Some (temp_dir ++ ["1"; default "" (last package)], t).

End Demo.

(** ** The hooks of [plugin3.py] *)

Section Hooks.

(** The subprocess behind [venv._pcall]: from the resolved argument vector
    and the working directory to the file system that a completed call
    leaves (what the host writes around the process included), [None] for
    a failing exit status.  What a failed call leaves in the file system
    is not described. *)
Variable popen : list string → path → node → option node.

(** [utils.clone_pdm_files(env_path, root)]: [None] when it raises. *)
Variable clone_pdm_files : string → string → node → option node.

(** [utils.get_env_lib_path(pdm, path)], taken as a function of its two
    arguments: the library directory of the environment. *)
Variable get_env_lib_path : string → path → path.

(** The host's [venv._install(deps)], which expands the stored install
    command with the dependencies and runs it as a subprocess of its own:
    the file system that a completed install leaves, [None] for a failing
    exit status. *)
Variable host_install : list string → list string → node → option node.

(** The host's [create_session_view(package, temp_dir)]. *)
Variable create_session_view : path → path → node → option (path * node).

(** [os.name] *)
Variable os_name : string.

(** [venv.envconfig.config.option.pdm] and [venv.envconfig.config.toxinidir] *)
Definition option_pdm (venv : VirtualEnv) : string :=
  pdm (config (envconfig venv)).
Definition venv_toxinidir (venv : VirtualEnv) : path :=
  toxinidir (config (envconfig venv)).

(** [venv._pcall(args, cwd, venv=False, action)] as the plugin calls it:
    the host resolves the command name with [getcommandpath] and runs the
    process; a failing exit status raises [InvocationError]. *)
Definition _pcall (venv : VirtualEnv) (args : list string) (cwd : path) : M unit :=
  modify (emit (Pcall args cwd)) ;;
  w <- get_world ;;
  let argv := match args with
              | [] => []
              | cmd :: rest => getcommandpath w venv cmd :: rest
              end in
  match popen argv cwd (fs w) with
  | Some t => modify (set_fs t)
  | None => raise InvocationError
  end.

(** [venv._install(deps, action)]: the host's own subprocess, recorded
    apart from the calls of the plugin; it fails as they do. *)
Definition _install (venv : VirtualEnv) (deps : list string) : M unit :=
  cmd <- py_read (install_command (envconfig venv)) ;;
  modify (emit (HostInstall cmd deps)) ;;
  w <- get_world ;;
  match host_install cmd deps (fs w) with
  | Some t => modify (set_fs t)
  | None => raise InvocationError
  end.

Definition patch_getcommandpath (config_interpreter : string)
    (getcommandpath : VirtualEnv → string → string)
    : VirtualEnv → string → string :=
  λ self cmd,
    if decide (cmd = "python") then config_interpreter
    else getcommandpath self cmd.

Definition tox_testenv_create (venv : VirtualEnv) : M bool :=
  lift_fs (clone_pdm_files (str (venv_path venv))
                           (str (venv_toxinidir venv))) ;;
  let config_interpreter := getsupportedinterpreter venv in
  modify (λ w, set_getcommandpath
                 (patch_getcommandpath config_interpreter (getcommandpath w)) w) ;;
  _pcall venv [option_pdm venv; "use"; "-f"; config_interpreter] (venv_path venv) ;;
  ret true.

(** Lines 76-89 of [acquire_package]: the build directory is emptied, the
    environment is created and the build subcommand is run. *)
Definition build_sdist (config : Config) (venv : VirtualEnv) : M unit :=
  let target_dir := toxworkdir config ++ [isolated_build_env config] in
  ensure_empty_dir target_dir ;;
  let args := [option_pdm venv; "build"; "--no-wheel"; "-d"; str target_dir] in
  new_action "buildpkg" ;;
  tox_testenv_create venv ;;
  _pcall venv args (venv_toxinidir venv).

Definition acquire_package (config : Config) (venv : VirtualEnv) : M path :=
  let target_dir := toxworkdir config ++ [isolated_build_env config] in
  build_sdist config venv ;;
  w <- get_world ;;
  path <- next (visit "*.tar.gz" target_dir (fs w)) ;;
  setactivity "buildpkg" [str path] ;;
  ret path.

(** The result is [None] for Python's [None], else the pair
    [(session_package, package)]. *)
Definition get_package (session : Session) (venv : VirtualEnv)
    : M (option (path * path)) :=
  let config := session_config session in
  if skipsdist config then
    reporter_info "skipping sdist step" ;;
    ret None
  else
    let lock_file :=
      toxworkdir config ++ [isolated_build_env config +:+ ".lock"] in
    hold_lock lock_file (
      package <- acquire_package config venv ;;
      w <- get_world ;;
      match create_session_view package (temp_dir config) (fs w) with
      | None => raise OSError
      | Some (session_package, t) =>
          modify (set_fs t) ;;
          ret (Some (session_package, package))
      end).

Definition tox_package (session : Session) (venv : VirtualEnv) : M (option path) :=
  lift_fs (clone_pdm_files (str (venv_path venv))
                           (str (venv_toxinidir venv))) ;;
  w <- get_world ;;
  (if bool_decide (is_Some (session_package w)) then ret tt
   else
     r <- get_package session venv ;;
     match r with
     | Some (package, dist) =>
         modify (set_session (Some package) (Some dist))
     | None => raise TypeError
     end) ;;
  patch_python (install_command (envconfig venv)) (getsupportedinterpreter venv) ;;
  py_extend (install_command (envconfig venv))
    ["-t"; str (get_env_lib_path (option_pdm venv) (venv_path venv))] ;;
  w <- get_world ;;
  ret (session_package w).

(** Lines 136-146 of the dependency hook: the scripts move out of the
    [bin] directory below the library path. *)
Definition relocate_scripts (venv : VirtualEnv) : M unit :=
  let lib_path := get_env_lib_path (option_pdm venv) (venv_path venv) in
  let bin_dir := lib_path ++ ["bin"] in
  let scripts_dir :=
    removelast lib_path ++ [if decide (os_name = "nt") then "Scripts" else "bin"] in
  w <- get_world ;;
  if exists_ bin_dir (fs w) then
    match listdir bin_dir (fs w) with
    | None => raise OSError
    | Some items =>
        for_each items (λ item,
          let bin_item := bin_dir ++ [item] in
          lift_fs (shutil_move bin_item (scripts_dir ++ [item])))
    end
  else ret tt.

(** Lines 112-128 of the dependency hook: the install subcommand of the
    external tool.  [groups] is the list object of the configuration
    when that list is not empty, and a new empty list otherwise. *)
Definition pdm_install (venv : VirtualEnv) : M unit :=
  groups <- or_empty (groups (envconfig venv)) ;;
  gs <- py_read groups ;;
  if negb (skip_install (envconfig venv)) || truthy gs then
    setactivity "pdminstall" gs ;;
    let args := [option_pdm venv; "install"; "-p"; str (venv_path venv)] in
    args <- (if bool_decide ("default" ∈ gs) then
               py_remove groups "default" ;; ret args
             else if skip_install (envconfig venv) then
               ret (args ++ ["--no-default"])
             else ret args) ;;
    gs <- py_read groups ;;
    let args := foldl (λ args group, args ++ ["--group"; group]) args gs in
    let args := args ++ ["--no-self"] in
    _pcall venv args (venv_toxinidir venv)
  else ret tt.

(** Lines 130-134: the dependencies that the host tracks itself. *)
Definition install_resolved_dependencies (venv : VirtualEnv) : M unit :=
  let deps := get_resolved_dependencies venv in
  if truthy deps then
    let depinfo := String.concat ", " deps in
    setactivity "installdeps" [depinfo] ;;
    _install venv deps
  else ret tt.

Definition tox_testenv_install_deps (venv : VirtualEnv) : M bool :=
  pdm_install venv ;;
  install_resolved_dependencies venv ;;
  relocate_scripts venv ;;
  ret true.

Definition tox_runenvreport (venv : VirtualEnv) : M unit :=
  let command := list_dependencies_command (envconfig venv) in
  patch_python command (getsupportedinterpreter venv) ;;
  py_extend (list_dependencies_command (envconfig venv))
    ["--path"; str (get_env_lib_path (option_pdm venv) (venv_path venv))].

(** ** Vocabulary of the properties *)

(** The groups that the dependency hook observes: the stored list, or the
    empty list when the option is absent. *)
Definition observed_groups (venv : VirtualEnv) (w : World) : list string :=
  match groups (envconfig venv) with
  | Some l => default [] (heap w !! l)
  | None => []
  end.

(** One [--group] flag with its value for each group. *)
Definition group_flags (gs : list string) : list string :=
  gs ≫= λ g, ["--group"; g].

(** The argument vector that [pdm_install] builds from the observed
    groups [gs]. *)
Definition install_args (venv : VirtualEnv) (gs : list string) : list string :=
  [option_pdm venv; "install"; "-p"; str (venv_path venv)]
  ++ (if bool_decide ("default" ∈ gs) then []
      else if skip_install (envconfig venv) then ["--no-default"] else [])
  ++ group_flags (default gs (remove_first "default" gs))
  ++ ["--no-self"].

(** A step that never changes the component [proj] of the state. *)
Definition stable {X A} (proj : World → X) (m : M A) : Prop :=
  ∀ w, proj (m w).2 = proj w.

(** The token rewriting of [patch_python] as a function on the list. *)
Definition patched (interp : string) (cmd : list string) : list string :=
  (λ arg, if decide (arg = "python") then interp else arg) <$> cmd.

(** The tokens a command list started with, after [n] runs of the
    rewriting. *)
Definition rewritten (n : nat) (interp : string) (cmd : list string) : list string :=
  match n with 0 => cmd | S _ => patched interp cmd end.

(** [n] copies of a flag with its value. *)
Definition copies (n : nat) (flag value : string) : list string :=
  mjoin (replicate n [flag; value]).

(** The number of nodes of a tree, the measure for induction on trees. *)
Fixpoint node_size (t : node) : nat :=
  match t with
  | File => 1
  | Dir es => S (map_fold (λ _ c acc, node_size c + acc) 0 es)
  end.

(** ** Properties of the hooks *)

(** *** Running the monad *)

Lemma bind_Ret {A B} (m : M A) (k : A → M B) w a w' :
  m w = (Ret a, w') → bind m k w = k a w'.
Proof. unfold bind. by intros ->. Qed.

Lemma bind_Raise {A B} (m : M A) (k : A → M B) w e w' :
  m w = (Raise e, w') → bind m k w = (Raise e, w').
Proof. unfold bind. by intros ->. Qed.

(** C2.  With [skipsdist] set, [get_package] returns Python's [None]
    without raising, leaves the file system (and every other part of the
    state) as it was, and reports the skip with one informational
    message. *)
Theorem get_package_skipsdist (session : Session) (venv : VirtualEnv) (w : World) :
  skipsdist (session_config session) = true →
  get_package session venv w = (Ret None, emit (Info "skipping sdist step") w)
  ∧ fs (get_package session venv w).2 = fs w
  ∧ trace (get_package session venv w).2 = trace w ++ [Info "skipping sdist step"].
Proof.
  intros Hskip. unfold get_package. rewrite Hskip. done.
Qed.

(** C8.  With [skipsdist] set and no [package] attribute on the session,
    [tox_package] raises [TypeError] once the manifest files are cloned:
    [get_package] returns [None], which cannot be unpacked into two
    values.  The install command is not touched before the exception. *)
Theorem tox_package_skipsdist_TypeError
    (session : Session) (venv : VirtualEnv) (w : World) (t : node) :
  skipsdist (session_config session) = true →
  session_package w = None →
  clone_pdm_files (str (venv_path venv)) (str (venv_toxinidir venv)) (fs w) = Some t →
  (tox_package session venv w).1 = Raise TypeError
  ∧ heap (tox_package session venv w).2 = heap w.
Proof.
  intros Hskip Hattr Hclone.
  assert (tox_package session venv w
          = (Raise TypeError, emit (Info "skipping sdist step") (set_fs t w))) as ->.
  { unfold tox_package, get_package, bind, lift_fs, get_world, reporter_info,
      modify, ret, raise.
    rewrite Hclone. cbn. rewrite Hattr, Hskip. done. }
  done.
Qed.

(** *** Steps that keep a component of the state *)

Section Stable.
Context {X : Type} (proj : World → X).

Lemma stable_ret {A} (a : A) : stable proj (ret a).
Proof. done. Qed.

Lemma stable_raise {A} e : stable proj (@raise A e).
Proof. done. Qed.

Lemma stable_get_world : stable proj get_world.
Proof. done. Qed.

Lemma stable_py_read l : stable proj (py_read l).
Proof. done. Qed.

Lemma stable_bind {A B} (m : M A) (k : A → M B) :
  stable proj m → (∀ a, stable proj (k a)) → stable proj (bind m k).
Proof.
  intros Hm Hk w. unfold bind. specialize (Hm w).
  destruct (m w) as [[a|e] w1]; cbn in *; [|done].
  by rewrite Hk.
Qed.

Lemma stable_modify (f : World → World) :
  (∀ w, proj (f w) = proj w) → stable proj (modify f).
Proof. intros Hf w. apply Hf. Qed.

Lemma stable_lift_fs f :
  (∀ t w, proj (set_fs t w) = proj w) → stable proj (lift_fs f).
Proof. intros Hf w. unfold lift_fs. destruct (f (fs w)); [apply Hf|done]. Qed.

Lemma stable_try_finally {A} (body : M A) fin :
  stable proj body → (∀ w, proj (fin w) = proj w) →
  stable proj (try_finally body fin).
Proof.
  intros Hb Hf w. unfold try_finally. specialize (Hb w).
  destruct (body w) as [r w1]; cbn in *. by rewrite Hf.
Qed.

Lemma stable_for_each {A} (l : list A) (body : A → M unit) :
  (∀ x, stable proj (body x)) → stable proj (for_each l body).
Proof.
  intros Hbody. induction l as [|x l IH]; cbn.
  - apply stable_ret.
  - by apply stable_bind.
Qed.

(** What follows a step does not count when it is stable. *)
Lemma stable_after {A B} (m : M A) (k : A → M B) w :
  (∀ a, stable proj (k a)) → proj (bind m k w).2 = proj (m w).2.
Proof.
  intros Hk. unfold bind. destruct (m w) as [[a|e] w1]; [|done]. apply Hk.
Qed.
End Stable.

Lemma pcalls_emit e w :
  pcalls (emit e w)
  = pcalls w ++ match e with Pcall args _ => [args] | _ => [] end.
Proof. unfold pcalls, emit; cbn. rewrite omap_app. by destruct e. Qed.

(** Breaks a stability goal down to the primitive steps; the side
    conditions on the state setters hold by computation. *)
Ltac stable_step :=
  lazymatch goal with
  | |- stable _ (ret _) => apply stable_ret
  | |- stable _ (raise _) => apply stable_raise
  | |- stable _ get_world => apply stable_get_world
  | |- stable _ (py_read _) => apply stable_py_read
  | |- stable _ (bind _ _) => apply stable_bind; [|intros ?]
  | |- stable _ (for_each _ _) => apply stable_for_each; intros ?
  | |- stable _ (try_finally _ _) => apply stable_try_finally; [|intros ?]
  | |- stable _ (lift_fs _) => apply stable_lift_fs; intros ? ?
  | |- stable _ (modify _) => apply stable_modify; intros ?
  | |- stable _ (if ?b then _ else _) => destruct b
  | |- stable _ (match ?x with _ => _ end) => destruct x
  end.

Ltac stable_side :=
  first [ reflexivity
        | by (rewrite pcalls_emit; cbn [app]; rewrite app_nil_r) ].

Ltac stable := repeat stable_step; try stable_side.

Lemma stable_setactivity_pcalls name msg : stable pcalls (setactivity name msg).
Proof. unfold setactivity. stable. Qed.

Lemma stable_install_resolved_dependencies_pcalls venv :
  stable pcalls (install_resolved_dependencies venv).
Proof. unfold install_resolved_dependencies, _install, setactivity. stable. Qed.

Lemma stable_install_resolved_dependencies_heap venv :
  stable heap (install_resolved_dependencies venv).
Proof. unfold install_resolved_dependencies, _install, setactivity. stable. Qed.

Lemma stable_relocate_scripts_pcalls venv : stable pcalls (relocate_scripts venv).
Proof. unfold relocate_scripts. stable. Qed.

Lemma stable_relocate_scripts_heap venv : stable heap (relocate_scripts venv).
Proof. unfold relocate_scripts. stable. Qed.

(** After its first phase the dependency hook issues no call and leaves
    the lists alone. *)
Lemma install_deps_after_pdm_install venv w :
  pcalls (tox_testenv_install_deps venv w).2 = pcalls (pdm_install venv w).2
  ∧ heap (tox_testenv_install_deps venv w).2 = heap (pdm_install venv w).2.
Proof.
  unfold tox_testenv_install_deps. split; apply stable_after; intros _.
  - apply stable_bind; [apply stable_install_resolved_dependencies_pcalls|].
    intros _. apply stable_bind; [apply stable_relocate_scripts_pcalls|].
    intros _. stable.
  - apply stable_bind; [apply stable_install_resolved_dependencies_heap|].
    intros _. apply stable_bind; [apply stable_relocate_scripts_heap|].
    intros _. stable.
Qed.

(** *** The install subcommand *)

Lemma foldl_group_flags (args gs : list string) :
  foldl (λ args group, args ++ ["--group"; group]) args gs
  = args ++ group_flags gs.
Proof.
  revert args. induction gs as [|g gs IH]; intros args; cbn.
  - by rewrite app_nil_r.
  - rewrite IH. unfold group_flags. cbn. by rewrite <- app_assoc.
Qed.

Lemma remove_first_elem_of x l :
  x ∈ l → is_Some (remove_first x l).
Proof.
  induction l as [|y l IH]; [by intros ?%elem_of_nil|].
  intros Hin. cbn. case_decide; [by eexists|].
  apply elem_of_cons in Hin as [?|Hin]; [done|].
  destruct (IH Hin) as [l' ->]. by eexists.
Qed.

Lemma remove_first_not_elem_of x l :
  x ∉ l → remove_first x l = None.
Proof.
  induction l as [|y l IH]; [done|].
  intros Hin. apply not_elem_of_cons in Hin as [? ?].
  cbn. case_decide; [done|]. by rewrite IH.
Qed.

Lemma truthy_true {A} (l : list A) : l ≠ [] → truthy l = true.
Proof. by destruct l. Qed.

Lemma or_empty_stored l gs w :
  heap w !! l = Some gs → gs ≠ [] → or_empty (Some l) w = (Ret l, w).
Proof.
  intros Hl Hne. unfold or_empty, bind, py_read. rewrite Hl. cbn.
  by rewrite truthy_true.
Qed.

Lemma py_read_eq l v w : heap w !! l = Some v → py_read l w = (Ret v, w).
Proof. unfold py_read. by intros ->. Qed.

Lemma py_remove_eq l x v v' w :
  heap w !! l = Some v → remove_first x v = Some v' →
  py_remove l x w = (Ret tt, set_heap (<[l:=v']> (heap w)) w).
Proof.
  intros Hl Hv. unfold py_remove, bind, py_read. rewrite Hl. cbn.
  by rewrite Hv.
Qed.

Lemma pcalls_trace w w' evs :
  trace w' = trace w ++ evs →
  pcalls w'
  = pcalls w ++ omap (λ e, match e with Pcall a _ => Some a | _ => None end) evs.
Proof. unfold pcalls. intros ->. by rewrite omap_app. Qed.

(** What [_pcall] leaves behind, whether or not the process succeeds. *)
Lemma pcall_effect venv args cwd w :
  trace (_pcall venv args cwd w).2 = trace w ++ [Pcall args cwd]
  ∧ heap (_pcall venv args cwd w).2 = heap w
  ∧ getcommandpath (_pcall venv args cwd w).2 = getcommandpath w.
Proof.
  unfold _pcall, bind, modify, get_world, raise.
  by destruct (popen _ _ _).
Qed.

(** A non-empty stored list is the list the hook works on: the call is
    built from it and the removal of ["default"] is written to it. *)
Lemma pdm_install_stored venv w l gs :
  groups (envconfig venv) = Some l →
  heap w !! l = Some gs →
  gs ≠ [] →
  trace (pdm_install venv w).2
  = trace w ++ [Activity "pdminstall" gs;
                Pcall (install_args venv gs) (venv_toxinidir venv)]
  ∧ heap (pdm_install venv w).2
    = <[l := default gs (remove_first "default" gs)]> (heap w).
Proof.
  intros Hg Hl Hne.
  unfold pdm_install, install_args. rewrite Hg.
  erewrite bind_Ret by (by eapply or_empty_stored).
  erewrite bind_Ret by (by apply py_read_eq).
  rewrite (truthy_true gs Hne), orb_true_r.
  erewrite bind_Ret by reflexivity.
  destruct (decide ("default" ∈ gs)) as [Hin|Hin].
  - rewrite !(bool_decide_eq_true_2 _ Hin).
    destruct (remove_first_elem_of _ _ Hin) as [gs' Hgs']. rewrite Hgs'.
    erewrite bind_Ret; cycle 1.
    { erewrite bind_Ret by (by eapply py_remove_eq). reflexivity. }
    erewrite bind_Ret by (apply py_read_eq, lookup_insert_eq).
    rewrite foldl_group_flags.
    match goal with |- context [_pcall venv ?a ?c ?w0] =>
      destruct (pcall_effect venv a c w0) as (-> & -> & _) end.
    cbn. by rewrite <- !app_assoc.
  - rewrite !(bool_decide_eq_false_2 _ Hin).
    rewrite (remove_first_not_elem_of _ _ Hin). cbn [default].
    rewrite (insert_id _ _ _ Hl).
    destruct (skip_install (envconfig venv)).
    all: erewrite bind_Ret by reflexivity.
    all: erewrite bind_Ret by (by apply py_read_eq).
    all: rewrite foldl_group_flags.
    all: match goal with |- context [_pcall ?v ?a ?c ?w0] =>
           destruct (pcall_effect v a c w0) as (-> & -> & _) end.
    all: cbn; by rewrite <- !app_assoc.
Qed.

Lemma or_empty_fresh venv w :
  observed_groups venv w = [] →
  or_empty (groups (envconfig venv)) w
  = (Ret (fresh (dom (heap w))),
     set_heap (<[fresh (dom (heap w)) := []]> (heap w)) w).
Proof.
  unfold observed_groups, or_empty. destruct (groups _) as [l|]; [|done].
  intros Hobs. unfold bind, py_read. by rewrite Hobs.
Qed.

(** Without stored groups the hook works on a new empty list: with
    [skip_install] nothing is run, otherwise the bare install command. *)
Lemma pdm_install_fresh venv w :
  observed_groups venv w = [] →
  trace (pdm_install venv w).2
  = trace w ++ (if skip_install (envconfig venv) then []
                else [Activity "pdminstall" [];
                      Pcall (install_args venv []) (venv_toxinidir venv)])
  ∧ heap (pdm_install venv w).2 = <[fresh (dom (heap w)) := []]> (heap w).
Proof.
  intros Hobs. unfold pdm_install, install_args.
  erewrite bind_Ret by (by apply or_empty_fresh).
  erewrite bind_Ret by (apply py_read_eq, lookup_insert_eq).
  destruct (skip_install (envconfig venv)); cbn [negb orb truthy].
  - cbn. by rewrite app_nil_r.
  - erewrite bind_Ret by reflexivity.
    rewrite bool_decide_eq_false_2 by apply not_elem_of_nil.
    erewrite bind_Ret by reflexivity.
    erewrite bind_Ret by (apply py_read_eq, lookup_insert_eq).
    match goal with |- context [_pcall ?v ?a ?c ?w0] =>
      destruct (pcall_effect v a c w0) as (-> & -> & _) end.
    cbn. by rewrite <- !app_assoc.
Qed.

Lemma observed_groups_stored venv w :
  observed_groups venv w ≠ [] →
  ∃ l, groups (envconfig venv) = Some l
       ∧ heap w !! l = Some (observed_groups venv w).
Proof.
  unfold observed_groups. destruct (groups _) as [l|]; [|done].
  destruct (heap w !! l) as [gs|] eqn:Hl; [|done]. intros _. by exists l.
Qed.

(** The calls of the dependency hook, in every case: one install command
    built from the observed groups, unless [skip_install] is set and no
    group is given, when there is none. *)
Lemma install_deps_pcalls venv w :
  pcalls (tox_testenv_install_deps venv w).2
  = pcalls w ++
    (if negb (skip_install (envconfig venv)) || truthy (observed_groups venv w)
     then [install_args venv (observed_groups venv w)] else []).
Proof.
  destruct (install_deps_after_pdm_install venv w) as [-> _].
  destruct (decide (observed_groups venv w = [])) as [Hobs|Hobs].
  - destruct (pdm_install_fresh venv w Hobs) as [Htr _].
    rewrite (pcalls_trace _ _ _ Htr), Hobs, orb_false_r.
    by destruct (skip_install _).
  - destruct (observed_groups_stored venv w Hobs) as (l & Hg & Hl).
    destruct (pdm_install_stored venv w l _ Hg Hl Hobs) as [Htr _].
    rewrite (pcalls_trace _ _ _ Htr), (truthy_true _ Hobs), orb_true_r. done.
Qed.

(** The removal of ["default"] reaches the stored configuration: the
    hook works on the stored list itself when that list is not empty. *)
Lemma install_deps_stored_groups venv w l gs :
  groups (envconfig venv) = Some l →
  heap w !! l = Some gs →
  gs ≠ [] →
  heap (tox_testenv_install_deps venv w).2 !! l
  = Some (default gs (remove_first "default" gs)).
Proof.
  intros Hg Hl Hne.
  destruct (install_deps_after_pdm_install venv w) as [_ ->].
  destruct (pdm_install_stored venv w l gs Hg Hl Hne) as [_ ->].
  apply lookup_insert_eq.
Qed.

(** A list that names ["default"] once loses it, and no [--group] flag
    is built for it. *)
Lemma remove_first_once gs1 gs2 :
  "default" ∉ gs1 →
  remove_first "default" (gs1 ++ "default" :: gs2) = Some (gs1 ++ gs2).
Proof.
  induction gs1 as [|g gs1 IH]; intros Hnot; cbn.
  - by rewrite decide_True.
  - apply not_elem_of_cons in Hnot as [Hg Hnot].
    rewrite decide_False by done. by rewrite IH.
Qed.

Lemma install_args_default_once venv gs1 gs2 :
  "default" ∉ gs1 →
  install_args venv (gs1 ++ "default" :: gs2)
  = [option_pdm venv; "install"; "-p"; str (venv_path venv)]
    ++ group_flags (gs1 ++ gs2) ++ ["--no-self"].
Proof.
  intros Hnot. unfold install_args.
  rewrite bool_decide_eq_true_2 by set_solver.
  by rewrite remove_first_once.
Qed.

Lemma filter_no_default (gs : list string) :
  "default" ∉ gs → filter (λ g, g ≠ "default") gs = gs.
Proof.
  induction gs as [|g gs IH]; [done|].
  intros [Hg Hgs]%not_elem_of_cons.
  rewrite filter_cons_True by done. by rewrite IH.
Qed.

Lemma remove_first_at_most_once (gs : list string) :
  (length (filter (λ g, g = "default") gs) ≤ 1)%nat →
  default gs (remove_first "default" gs) = filter (λ g, g ≠ "default") gs.
Proof.
  induction gs as [|g gs IH]; [done|]. cbn [remove_first].
  destruct (decide ("default" = g)) as [<-|Hg].
  - rewrite filter_cons_True by done. cbn [length]. intros Hlen.
    rewrite filter_cons_False by (intros Hne; by apply Hne).
    cbn. rewrite filter_no_default; [done|].
    intros Hin. assert ("default" ∈ filter (λ g, g = "default") gs) as Hin'
      by (by apply list_elem_of_filter).
    destruct (filter (λ g, g = "default") gs); [by apply elem_of_nil in Hin'|].
    cbn in Hlen. lia.
  - rewrite filter_cons_False by congruence. intros Hlen.
    rewrite filter_cons_True by congruence. rewrite <- IH by done.
    by destruct (remove_first "default" gs).
Qed.

(** When ["default"] is named at most once, no group flag is built for
    it: the command carries one [--group] flag for each of the other
    groups, in order. *)
Lemma install_deps_default_at_most_once venv w :
  (length (filter (λ g, g = "default") (observed_groups venv w)) ≤ 1)%nat →
  pcalls (tox_testenv_install_deps venv w).2
  = pcalls w ++
    (if negb (skip_install (envconfig venv)) || truthy (observed_groups venv w)
     then [[option_pdm venv; "install"; "-p"; str (venv_path venv)]
           ++ (if bool_decide ("default" ∈ observed_groups venv w) then []
               else if skip_install (envconfig venv) then ["--no-default"] else [])
           ++ group_flags (filter (λ g, g ≠ "default") (observed_groups venv w))
           ++ ["--no-self"]]
     else []).
Proof.
  intros Hlen. rewrite install_deps_pcalls. unfold install_args.
  by rewrite remove_first_at_most_once.
Qed.

(** C1, as the code has it.  With [skip_install] set: when the groups
    list is empty or absent the hook runs no install command at all; the
    flag [--no-default] is passed when the groups list is not empty and
    does not name ["default"], and then every group follows as a
    [--group] flag. *)
Theorem install_deps_skip_install (venv : VirtualEnv) (w : World) :
  skip_install (envconfig venv) = true →
  (observed_groups venv w = [] →
     pcalls (tox_testenv_install_deps venv w).2 = pcalls w)
  ∧ (observed_groups venv w ≠ [] →
     "default" ∉ observed_groups venv w →
     pcalls (tox_testenv_install_deps venv w).2
     = pcalls w ++
       [[option_pdm venv; "install"; "-p"; str (venv_path venv); "--no-default"]
        ++ group_flags (observed_groups venv w) ++ ["--no-self"]]).
Proof.
  intros Hskip. rewrite install_deps_pcalls, Hskip. split.
  - intros ->. cbn. by rewrite app_nil_r.
  - intros Hne Hin. rewrite (truthy_true _ Hne). cbn [negb orb].
    unfold install_args.
    rewrite (bool_decide_eq_false_2 _ Hin), Hskip,
      (remove_first_not_elem_of _ _ Hin).
    done.
Qed.

(** *** The command-path resolver *)

(** C3, as the code has it.  Once the manifest files are cloned, the
    environment-creation hook substitutes the resolver and never puts
    the previous one back: its subprocess is started under the
    substituted resolver, and in the state the hook leaves, ["python"]
    resolves to the interpreter of this environment for every
    environment, while every other command resolves as before. *)
Theorem tox_testenv_create_patches_resolver
    (venv : VirtualEnv) (w : World) (t : node) :
  clone_pdm_files (str (venv_path venv)) (str (venv_toxinidir venv)) (fs w) = Some t →
  tox_testenv_create venv w
  = bind (_pcall venv [option_pdm venv; "use"; "-f"; getsupportedinterpreter venv]
                 (venv_path venv))
         (λ _, ret true)
         (set_getcommandpath
            (patch_getcommandpath (getsupportedinterpreter venv) (getcommandpath w))
            (set_fs t w))
  ∧ (∀ self, getcommandpath (tox_testenv_create venv w).2 self "python"
             = getsupportedinterpreter venv)
  ∧ (∀ self cmd, cmd ≠ "python" →
       getcommandpath (tox_testenv_create venv w).2 self cmd
       = getcommandpath w self cmd).
Proof.
  intros Hclone.
  assert (tox_testenv_create venv w
    = bind (_pcall venv [option_pdm venv; "use"; "-f"; getsupportedinterpreter venv]
                   (venv_path venv))
           (λ _, ret true)
           (set_getcommandpath
              (patch_getcommandpath (getsupportedinterpreter venv) (getcommandpath w))
              (set_fs t w))) as Heq.
  { unfold tox_testenv_create.
    erewrite bind_Ret by (unfold lift_fs; by rewrite Hclone).
    by erewrite bind_Ret by reflexivity. }
  split; [done|]. rewrite Heq.
  assert (getcommandpath
            (bind (_pcall venv [option_pdm venv; "use"; "-f"; getsupportedinterpreter venv]
                          (venv_path venv))
                  (λ _, ret true)
                  (set_getcommandpath
                     (patch_getcommandpath (getsupportedinterpreter venv)
                        (getcommandpath w)) (set_fs t w))).2
          = patch_getcommandpath (getsupportedinterpreter venv) (getcommandpath w))
    as ->.
  { rewrite (stable_after getcommandpath) by (intros _; apply stable_ret).
    match goal with |- context [_pcall ?v ?a ?c ?w0] =>
      destruct (pcall_effect v a c w0) as (_ & _ & ->) end.
    done. }
  unfold patch_getcommandpath. split.
  - intros self. by rewrite decide_True.
  - intros self cmd Hne. by rewrite decide_False.
Qed.

(** *** The command lists *)

Lemma set_heap_id w : set_heap (heap w) w = w.
Proof. by destruct w. Qed.

Lemma patch_python_loop cmd interp rest : ∀ pre w,
  heap w !! cmd = Some (pre ++ rest) →
  for_each (seq (length pre) (length rest)) (λ i,
    cur <- py_read cmd ;;
    if bool_decide (cur !! i = Some "python")
    then py_write cmd (<[i:=interp]> cur)
    else ret tt) w
  = (Ret tt, set_heap (<[cmd := pre ++ patched interp rest]> (heap w)) w).
Proof.
  induction rest as [|a rest IH]; intros pre w Hcmd.
  - cbn. rewrite app_nil_r in *. by rewrite insert_id, set_heap_id.
  - cbn [length seq for_each].
    destruct (decide (a = "python")) as [->|Hne].
    + erewrite bind_Ret; cycle 1.
      { erewrite bind_Ret by (by apply py_read_eq).
        rewrite list_lookup_middle by done.
        rewrite bool_decide_eq_true_2 by done. reflexivity. }
      rewrite insert_app_r_alt, Nat.sub_diag by done. cbn [insert list_insert].
      replace (S (length pre)) with (length (pre ++ [interp]))
        by (rewrite length_app; cbn; lia).
      rewrite (IH (pre ++ [interp])); cycle 1.
      { cbn. by rewrite lookup_insert_eq, <- app_assoc. }
      cbn. rewrite insert_insert_eq, <- app_assoc. unfold patched. cbn.
      by rewrite decide_True.
    + erewrite bind_Ret; cycle 1.
      { erewrite bind_Ret by (by apply py_read_eq).
        rewrite list_lookup_middle by done.
        rewrite bool_decide_eq_false_2 by congruence. reflexivity. }
      replace (S (length pre)) with (length (pre ++ [a]))
        by (rewrite length_app; cbn; lia).
      rewrite (IH (pre ++ [a])); cycle 1.
      { by rewrite <- app_assoc. }
      rewrite <- app_assoc. unfold patched. cbn. by rewrite decide_False.
Qed.

Lemma patch_python_eq cmd interp v w :
  heap w !! cmd = Some v →
  patch_python cmd interp w
  = (Ret tt, set_heap (<[cmd := patched interp v]> (heap w)) w).
Proof.
  intros Hcmd. unfold patch_python.
  erewrite bind_Ret by (by apply py_read_eq).
  by apply (patch_python_loop cmd interp v []).
Qed.

(** Rewriting and extending a command list, as both hooks do. *)
Lemma patch_extend_eq cmd interp flag value v w :
  heap w !! cmd = Some v →
  bind (patch_python cmd interp) (λ _, py_extend cmd [flag; value]) w
  = (Ret tt, set_heap (<[cmd := patched interp v ++ [flag; value]]> (heap w)) w).
Proof.
  intros Hcmd. erewrite bind_Ret by (by apply patch_python_eq).
  unfold py_extend.
  erewrite bind_Ret by (apply py_read_eq, lookup_insert_eq).
  unfold py_write, modify. cbn. by rewrite insert_insert_eq.
Qed.

Lemma patched_idemp interp v : patched interp (patched interp v) = patched interp v.
Proof.
  unfold patched. rewrite <- list_fmap_compose. apply list_fmap_ext.
  intros _ a _. cbn. repeat case_decide; congruence.
Qed.

Lemma str_not_python p : str p ≠ "python".
Proof. unfold str. cbn. discriminate. Qed.

Lemma rewritten_step n interp v flag value :
  flag ≠ "python" → value ≠ "python" →
  rewritten n interp (patched interp v ++ [flag; value]) ++ copies n flag value
  = rewritten (S n) interp v ++ copies (S n) flag value.
Proof.
  intros Hf Hv. destruct n as [|n]; cbn [rewritten].
  - unfold copies. cbn. by rewrite app_nil_r.
  - unfold patched at 1. rewrite fmap_app. fold (patched interp (patched interp v)).
    rewrite patched_idemp. cbn. rewrite !decide_False by done.
    unfold copies. cbn. by rewrite <- app_assoc.
Qed.

Lemma tox_runenvreport_eq venv v w :
  heap w !! list_dependencies_command (envconfig venv) = Some v →
  tox_runenvreport venv w
  = (Ret tt,
     set_heap (<[list_dependencies_command (envconfig venv) :=
                   patched (getsupportedinterpreter venv) v
                   ++ ["--path"; str (get_env_lib_path (option_pdm venv) (venv_path venv))]]>
                 (heap w)) w).
Proof. apply patch_extend_eq. Qed.

Lemma invocations_runenvreport venv n : ∀ v w,
  heap w !! list_dependencies_command (envconfig venv) = Some v →
  (invocations n (tox_runenvreport venv) w).1 = Ret tt
  ∧ heap (invocations n (tox_runenvreport venv) w).2
      !! list_dependencies_command (envconfig venv)
    = Some (rewritten n (getsupportedinterpreter venv) v
            ++ copies n "--path"
                 (str (get_env_lib_path (option_pdm venv) (venv_path venv)))).
Proof.
  induction n as [|n IH]; intros v w Hv.
  - cbn. by rewrite app_nil_r.
  - cbn [invocations].
    erewrite bind_Ret by (by apply tox_runenvreport_eq).
    edestruct IH as [-> ->]; [apply lookup_insert_eq|].
    split; [done|]. f_equal.
    apply rewritten_step; [done|apply str_not_python].
Qed.

(** The steps of the package hook before the install command is
    rewritten leave the lists alone. *)
Lemma stable_pcall_heap venv args cwd : stable heap (_pcall venv args cwd).
Proof. intros w. by destruct (pcall_effect venv args cwd w) as (_ & -> & _). Qed.

Lemma stable_tox_testenv_create_heap venv : stable heap (tox_testenv_create venv).
Proof.
  unfold tox_testenv_create. cbv zeta.
  apply stable_bind; [stable|intros _].
  apply stable_bind; [stable|intros _].
  apply stable_bind; [apply stable_pcall_heap|intros _]. stable.
Qed.

Lemma stable_acquire_package_heap config venv :
  stable heap (acquire_package config venv).
Proof.
  unfold acquire_package, build_sdist, ensure_empty_dir, new_action,
    reporter_info, setactivity, next. cbv zeta.
  apply stable_bind; [|intros _; stable].
  apply stable_bind; [stable|intros _].
  apply stable_bind; [stable|intros _].
  apply stable_bind; [apply stable_tox_testenv_create_heap|intros _].
  apply stable_pcall_heap.
Qed.

Lemma stable_get_package_heap session venv :
  stable heap (get_package session venv).
Proof.
  unfold get_package, hold_lock, acquire_lock, reporter_info. cbv zeta.
  destruct (skipsdist _); [stable|].
  apply stable_bind; [stable|intros _].
  apply stable_try_finally; [|done].
  apply stable_bind; [apply stable_acquire_package_heap|intros package].
  stable.
Qed.

Lemma bind_inv {A B} (m : M A) (k : A → M B) w r :
  (bind m k w).1 = Ret r →
  ∃ a w1, m w = (Ret a, w1) ∧ bind m k w = k a w1.
Proof.
  unfold bind. destruct (m w) as [[a|e] w1]; [|done]. eauto.
Qed.

Lemma py_extend_eq l xs v w :
  heap w !! l = Some v →
  py_extend l xs w = (Ret tt, set_heap (<[l := v ++ xs]> (heap w)) w).
Proof.
  intros Hl. unfold py_extend. by erewrite bind_Ret by (by apply py_read_eq).
Qed.

Lemma tox_package_heap session venv v w r :
  heap w !! install_command (envconfig venv) = Some v →
  (tox_package session venv w).1 = Ret r →
  heap (tox_package session venv w).2
  = <[install_command (envconfig venv) :=
        patched (getsupportedinterpreter venv) v
        ++ ["-t"; str (get_env_lib_path (option_pdm venv) (venv_path venv))]]>
      (heap w).
Proof.
  intros Hv Hret. unfold tox_package in *.
  destruct (bind_inv _ _ _ _ Hret) as (u1 & w1 & H1 & Heq1).
  rewrite Heq1 in *. clear Heq1.
  assert (heap w1 = heap w) as Hw1.
  { change w1 with (Ret u1, w1).2. rewrite <- H1. apply stable_lift_fs. done. }
  rewrite bind_Ret with (a := w1) (w' := w1) in * by done.
  destruct (bind_inv _ _ _ _ Hret) as (u2 & w2 & H2 & Heq2).
  rewrite Heq2 in *. clear Heq2.
  assert (heap w2 = heap w1) as Hw2.
  { change w2 with (Ret u2, w2).2. rewrite <- H2.
    destruct (bool_decide _); [done|].
    apply stable_bind; [apply stable_get_package_heap|]. intros [[??]|]; stable. }
  rewrite Hw1 in Hw2.
  erewrite bind_Ret by (apply patch_python_eq; by rewrite Hw2).
  erewrite bind_Ret by (apply py_extend_eq, lookup_insert_eq).
  cbn. by rewrite insert_insert_eq, Hw2.
Qed.

Lemma invocations_package session venv n : ∀ v w,
  heap w !! install_command (envconfig venv) = Some v →
  (invocations n (tox_package session venv) w).1 = Ret tt →
  heap (invocations n (tox_package session venv) w).2
    !! install_command (envconfig venv)
  = Some (rewritten n (getsupportedinterpreter venv) v
          ++ copies n "-t"
               (str (get_env_lib_path (option_pdm venv) (venv_path venv)))).
Proof.
  induction n as [|n IH]; intros v w Hv Hret.
  - cbn. by rewrite app_nil_r.
  - cbn [invocations] in *.
    destruct (bind_inv _ _ _ _ Hret) as (r & w1 & H1 & Heq).
    rewrite Heq in *. clear Heq.
    assert (heap w1 = <[install_command (envconfig venv) :=
              patched (getsupportedinterpreter venv) v
              ++ ["-t"; str (get_env_lib_path (option_pdm venv) (venv_path venv))]]>
            (heap w)) as Hw1.
    { change w1 with (Ret r, w1).2. rewrite <- H1.
      apply (tox_package_heap _ _ _ _ r); [done|by rewrite H1]. }
    erewrite IH; [|rewrite Hw1; apply lookup_insert_eq|done].
    f_equal. apply rewritten_step; [done|apply str_not_python].
Qed.

(** C10.  Neither hook checks whether its flag is already there: [n]
    calls of [tox_runenvreport] leave [n] copies of [--path <lib path>]
    at the end of the dependency-listing command, and [n] calls of
    [tox_package] that return leave [n] copies of [-t <lib path>] at the
    end of the install command, after the tokens the list started with
    (with ["python"] replaced once a call has been made).  So a second
    call never leaves a list as the first one left it. *)
Theorem command_lists_grow
    (session : Session) (venv : VirtualEnv) (w : World) (n : nat)
    (deps_cmd inst_cmd : list string) :
  let lib := str (get_env_lib_path (option_pdm venv) (venv_path venv)) in
  let interp := getsupportedinterpreter venv in
  heap w !! list_dependencies_command (envconfig venv) = Some deps_cmd →
  heap w !! install_command (envconfig venv) = Some inst_cmd →
  ((invocations n (tox_runenvreport venv) w).1 = Ret tt
   ∧ heap (invocations n (tox_runenvreport venv) w).2
       !! list_dependencies_command (envconfig venv)
     = Some (rewritten n interp deps_cmd ++ copies n "--path" lib))
  ∧ ((invocations n (tox_package session venv) w).1 = Ret tt →
     heap (invocations n (tox_package session venv) w).2
       !! install_command (envconfig venv)
     = Some (rewritten n interp inst_cmd ++ copies n "-t" lib))
  ∧ length (rewritten (S n) interp deps_cmd ++ copies (S n) "--path" lib)
    = 2 + length (rewritten n interp deps_cmd ++ copies n "--path" lib).
Proof.
  intros lib interp Hd Hi. split; [|split].
  - by apply invocations_runenvreport.
  - by apply invocations_package.
  - change (copies (S n) "--path" lib)
      with (["--path"; lib] ++ copies n "--path" lib).
    rewrite !length_app. cbn [length].
    assert (length (rewritten (S n) interp deps_cmd)
            = length (rewritten n interp deps_cmd)) as ->; [|lia].
    destruct n; cbn; unfold patched; by rewrite ?length_fmap.
Qed.

(** *** The file-system tree *)

Lemma split_last_snoc (d : path) n : split_last (d ++ [n]) = Some (d, n).
Proof.
  induction d as [|m d IH]; [done|].
  cbn [app split_last]. rewrite IH. by destruct d.
Qed.

Lemma lookup_path_app p q t :
  lookup_path (p ++ q) t = lookup_path p t ≫= lookup_path q.
Proof.
  revert t. induction p as [|n p IH]; intros t; [done|].
  cbn. destruct t as [|es]; [done|]. destruct (es !! n) as [c|]; [|done].
  cbn. apply IH.
Qed.

Lemma lookup_path_prefix p q t :
  p `prefix_of` q → is_Some (lookup_path q t) → is_Some (lookup_path p t).
Proof.
  intros [s ->]. rewrite lookup_path_app.
  destruct (lookup_path p t); [by eexists|]. by intros [? ?].
Qed.

Lemma isdir_lookup q t :
  isdir q t = true ↔ ∃ es, lookup_path q t = Some (Dir es).
Proof.
  unfold isdir. destruct (lookup_path q t) as [[|es]|]; split; try done.
  - by intros [? ?].
  - eauto.
  - by intros [? ?].
Qed.

(** The updated directory holds the rewritten entries. *)
Lemma update_dir_lookup f d : ∀ t es,
  lookup_path d t = Some (Dir es) →
  ∃ t', update_dir f d t = Some t'
        ∧ ∀ s, lookup_path (d ++ s) t' = lookup_path s (Dir (f es)).
Proof.
  induction d as [|n d IH]; intros t es Hd.
  - cbn in Hd. injection Hd as ->. by eexists.
  - cbn in Hd. destruct t as [|es0]; [done|].
    destruct (es0 !! n) as [c|] eqn:Hn; [|done]. cbn in Hd.
    destruct (IH c es Hd) as (c' & Hc' & Hlook).
    exists (Dir (<[n:=c']> es0)). split.
    + cbn. rewrite Hn. cbn. by rewrite Hc'.
    + intros s. cbn. rewrite lookup_insert_eq. cbn. apply Hlook.
Qed.

(** Paths that are neither above the directory nor below the entry that
    the rewriting touches are not affected. *)
Lemma update_dir_frame f n d :
  (∀ es m, m ≠ n → f es !! m = es !! m) →
  ∀ t t' q,
    update_dir f d t = Some t' →
    ¬ q `prefix_of` d → ¬ (d ++ [n]) `prefix_of` q →
    lookup_path q t' = lookup_path q t.
Proof.
  intros Hf. induction d as [|k d IH]; intros t t' q Hup Hq Hn.
  - destruct t as [|es]; [done|]. cbn in Hup. injection Hup as <-.
    destruct q as [|m q]; [by destruct Hq; apply prefix_nil|].
    cbn. rewrite Hf; [done|]. intros ->. apply Hn. apply prefix_cons, prefix_nil.
  - destruct t as [|es]; [done|]. cbn in Hup.
    destruct (es !! k) as [c|] eqn:Hk; [|done]. cbn in Hup.
    destruct (update_dir f d c) as [c'|] eqn:Hc; [|done]. cbn in Hup.
    injection Hup as <-.
    destruct q as [|m q]; [by destruct Hq; apply prefix_nil|].
    cbn. destruct (decide (k = m)) as [<-|Hkm].
    + rewrite lookup_insert_eq, Hk. cbn. apply (IH c); [done| |].
      * intros Hp. apply Hq. by apply prefix_cons.
      * intros Hp. apply Hn. by apply prefix_cons.
    + by rewrite lookup_insert_ne.
Qed.

(** Every directory above the updated one is still a directory. *)
Lemma update_dir_above f : ∀ d t t' q,
  update_dir f d t = Some t' → q `prefix_of` d → isdir q t' = true.
Proof.
  induction d as [|k d IH]; intros t t' q Hup Hq.
  - apply prefix_nil_inv in Hq as ->.
    destruct t as [|es]; [done|]. cbn in Hup. by injection Hup as <-.
  - destruct t as [|es]; [done|]. cbn in Hup.
    destruct (es !! k) as [c|] eqn:Hk; [|done]. cbn in Hup.
    destruct (update_dir f d c) as [c'|] eqn:Hc; [|done]. cbn in Hup.
    injection Hup as <-.
    destruct q as [|m q]; [done|].
    pose proof (prefix_cons_inv_1 _ _ _ _ Hq) as ->.
    apply prefix_cons_inv_2 in Hq.
    unfold isdir. cbn. rewrite lookup_insert_eq. cbn. by apply (IH c c').
Qed.

Lemma update_dir_isdir f n d t t' q :
  (∀ es m, m ≠ n → f es !! m = es !! m) →
  update_dir f d t = Some t' →
  ¬ (d ++ [n]) `prefix_of` q →
  isdir q t = true → isdir q t' = true.
Proof.
  intros Hf Hup Hn Hdir.
  destruct (decide (q `prefix_of` d)) as [Hq|Hq].
  - by eapply update_dir_above.
  - unfold isdir. by erewrite update_dir_frame.
Qed.

Lemma makedirs_isdir : ∀ d t, isdir d t = true → makedirs d t = Some t.
Proof.
  induction d as [|n d IH]; intros t Hdir.
  - by destruct t.
  - destruct t as [|es]; [done|]. unfold isdir in Hdir. cbn in *.
    destruct (es !! n) as [c|] eqn:Hn; [|done]. cbn in *.
    rewrite IH by done. cbn. by rewrite insert_id.
Qed.

Lemma delete_only n (es : gmap string node) m :
  m ≠ n → delete n es !! m = es !! m.
Proof. intros. by rewrite lookup_delete_ne. Qed.

Lemma insert_only n x (es : gmap string node) m :
  m ≠ n → <[n:=x]> es !! m = es !! m.
Proof. intros. by rewrite lookup_insert_ne. Qed.

(** *** Moving the scripts *)

(** A file has nothing below it. *)
Lemma lookup_path_below_file p q t :
  lookup_path p t = Some File → p `prefix_of` q →
  is_Some (lookup_path q t) → q = p.
Proof.
  intros Hp [s ->]. rewrite lookup_path_app, Hp. cbn.
  destruct s as [|n s]; [by rewrite app_nil_r|]. by intros [? ?].
Qed.

(** One iteration of the loop, when the scripts directory exists and
    either does not hold the name yet, or holds a file of that name that
    the file being moved replaces: the entry leaves [bin_dir] and arrives
    under the same name in [scripts_dir]. *)
Lemma shutil_move_entry (bin_dir scripts_dir : path) item x t es :
  (length scripts_dir ≤ length bin_dir)%nat →
  lookup_path bin_dir t = Some (Dir es) →
  es !! item = Some x →
  isdir scripts_dir t = true →
  (lookup_path (scripts_dir ++ [item]) t = None
   ∨ (x = File ∧ lookup_path (scripts_dir ++ [item]) t = Some File
      ∧ scripts_dir ≠ bin_dir)) →
  ∃ t1 t',
    update_dir (delete item) bin_dir t = Some t1
    ∧ update_dir (<[item:=x]>) scripts_dir t1 = Some t'
    ∧ shutil_move (bin_dir ++ [item]) (scripts_dir ++ [item]) t = Some t'.
Proof.
  intros Hlen Hbin Hitem Hscripts Hclash.
  assert (lookup_path (bin_dir ++ [item]) t = Some x) as Hsrc.
  { rewrite lookup_path_app, Hbin. cbn. by rewrite Hitem. }
  assert (¬ (bin_dir ++ [item]) `prefix_of` scripts_dir) as Hnot'.
  { intros Hp%prefix_length. rewrite length_app in Hp. cbn in Hp. lia. }
  destruct (update_dir_lookup (delete item) bin_dir t es Hbin) as (t1 & Ht1 & _).
  assert (isdir scripts_dir t1 = true) as Hscripts1.
  { apply (update_dir_isdir (delete item) item bin_dir t t1);
      [apply delete_only|done..]. }
  apply isdir_lookup in Hscripts1 as Hs1. destruct Hs1 as [es1 Hes1].
  destruct (update_dir_lookup (<[item:=x]>) scripts_dir t1 es1 Hes1)
    as (t' & Ht' & _).
  exists t1, t'. split; [done|]. split; [done|].
  unfold shutil_move, move_target. rewrite Hsrc.
  assert (isdir (scripts_dir ++ [item]) t = false) as ->.
  { unfold isdir. by destruct Hclash as [->|(_ & -> & _)]. }
  cbn [andb]. rewrite split_last_snoc.
  unfold remove, put. rewrite !split_last_snoc. cbn.
  destruct x as [|esx].
  - rewrite Hscripts, Ht1. cbn. done.
  - destruct Hclash as [Hfree|(? & _)]; [|done].
    assert (¬ (bin_dir ++ [item]) `prefix_of` (scripts_dir ++ [item])) as Hnot.
    { intros Hp. assert (bin_dir ++ [item] = scripts_dir ++ [item]) as Heq.
      { apply prefix_length_eq; [done|]. rewrite !length_app. cbn. lia. }
      rewrite Heq in Hsrc. congruence. }
    rewrite bool_decide_eq_false_2 by done.
    unfold exists_. rewrite Hfree.
    rewrite bool_decide_eq_false_2 by (by intros [? ?]). cbn.
    rewrite Ht1. cbn. rewrite makedirs_isdir by done. cbn. done.
Qed.

Lemma set_fs_id w : set_fs (fs w) w = w.
Proof. by destruct w. Qed.

(** The loop over the entries of [bin_dir]: every name is either new to
    the scripts directory, or that of a file replacing a file. *)
Lemma relocate_loop (bin_dir scripts_dir : path) :
  (length scripts_dir ≤ length bin_dir)%nat →
  ∀ items w es,
    NoDup items →
    lookup_path bin_dir (fs w) = Some (Dir es) →
    (∀ i, i ∈ items → is_Some (es !! i)) →
    isdir scripts_dir (fs w) = true →
    (∀ i, i ∈ items →
       lookup_path (scripts_dir ++ [i]) (fs w) = None
       ∨ (es !! i = Some File
          ∧ lookup_path (scripts_dir ++ [i]) (fs w) = Some File
          ∧ scripts_dir ≠ bin_dir)) →
    ∃ t' es',
      for_each items (λ item,
        lift_fs (shutil_move (bin_dir ++ [item]) (scripts_dir ++ [item]))) w
      = (Ret tt, set_fs t' w)
      ∧ lookup_path bin_dir t' = Some (Dir es')
      ∧ (∀ m, es' !! m = if decide (m ∈ items) then None else es !! m)
      ∧ (∀ i x, i ∈ items → es !! i = Some x →
           lookup_path (scripts_dir ++ [i]) t' = Some x)
      ∧ (∀ q, ¬ q `prefix_of` bin_dir → ¬ q `prefix_of` scripts_dir →
           (∀ k, k ∈ items → ¬ (bin_dir ++ [k]) `prefix_of` q
                             ∧ ¬ (scripts_dir ++ [k]) `prefix_of` q) →
           lookup_path q t' = lookup_path q (fs w)).
Proof.
  intros Hlen. induction items as [|i items IH]; intros w es Hnd Hbin Hin Hs Hfree.
  - exists (fs w), es. cbn. rewrite set_fs_id. split; [done|]. split; [done|].
    split; [|split]; [|by intros ?? ?%elem_of_nil|done].
    intros m. by rewrite decide_False by apply not_elem_of_nil.
  - apply NoDup_cons in Hnd as [Hi Hnd].
    destruct (Hin i) as [x Hx]; [apply list_elem_of_here|].
    pose proof (Hfree i (list_elem_of_here _ _)) as Hfree_i.
    destruct (shutil_move_entry bin_dir scripts_dir i x (fs w) es)
      as (t1 & t2 & Ht1 & Ht2 & Hmove); [done..| |].
    { destruct Hfree_i as [?|(Hf & ? & ?)]; [by left|right].
      rewrite Hx in Hf. by injection Hf as ->. }
    (* path facts *)
    assert (¬ bin_dir `prefix_of` scripts_dir) as Hbs.
    { intros Hp. assert (bin_dir = scripts_dir) as Heq
        by (by apply prefix_length_eq).
      destruct Hfree_i as [Hfree_i|(_ & _ & Hne)]; [|done].
      rewrite <- Heq, lookup_path_app, Hbin in Hfree_i. cbn in Hfree_i.
      rewrite Hx in Hfree_i. done. }
    assert (∀ k, k ∈ i :: items → ¬ (scripts_dir ++ [k]) `prefix_of` bin_dir)
      as Hsb.
    { intros k Hk Hp. destruct (Hfree k Hk) as [Hnone|(_ & Hfile & _)].
      - destruct (lookup_path_prefix _ _ (fs w) Hp) as [y Hy]; [by eexists|].
        rewrite Hnone in Hy; done.
      - rewrite (lookup_path_below_file _ _ _ Hfile Hp) in Hbin by (by eexists).
        congruence. }
    assert (∀ k j, (bin_dir ++ [k]) `prefix_of` (scripts_dir ++ [j]) → False)
      as Hbk.
    { intros k j Hp. apply Hbs.
      assert (bin_dir ++ [k] = scripts_dir ++ [j]) as Heq.
      { apply prefix_length_eq; [done|]. rewrite !length_app. cbn. lia. }
      apply app_inj_tail in Heq as [-> _]. done. }
    assert (∀ k, ¬ (scripts_dir ++ [k]) `prefix_of` scripts_dir) as Hss
      by (intros k; apply prefix_snoc_not).
    assert (∀ k j, k ≠ j → ¬ (scripts_dir ++ [k]) `prefix_of` (scripts_dir ++ [j]))
      as Hkj.
    { intros k j Hne Hp. apply Hne.
      assert (scripts_dir ++ [k] = scripts_dir ++ [j]) as Heq.
      { apply prefix_length_eq; [done|]. rewrite !length_app. cbn. lia. }
      by apply app_inj_tail in Heq as [_ ->]. }
    (* the frame of this iteration *)
    assert (∀ q, ¬ q `prefix_of` bin_dir → ¬ q `prefix_of` scripts_dir →
              ¬ (bin_dir ++ [i]) `prefix_of` q →
              ¬ (scripts_dir ++ [i]) `prefix_of` q →
              lookup_path q t2 = lookup_path q (fs w)) as Hframe.
    { intros q H1 H2 H3 H4.
      rewrite (update_dir_frame _ i scripts_dir (insert_only i x) t1 t2 q)
        by done.
      by rewrite (update_dir_frame _ i bin_dir (delete_only i) (fs w) t1 q). }
    (* the state after this iteration *)
    assert (lookup_path bin_dir t2 = Some (Dir (delete i es))) as Hbin2.
    { rewrite (update_dir_frame _ i scripts_dir (insert_only i x) t1 t2)
        by (try done; apply Hsb, list_elem_of_here).
      destruct (update_dir_lookup (delete i) bin_dir (fs w) es Hbin)
        as (t1' & Ht1' & Hl). rewrite Ht1 in Ht1'. injection Ht1' as <-.
      specialize (Hl []). by rewrite app_nil_r in Hl. }
    assert (isdir scripts_dir t2 = true) as Hs2.
    { by eapply update_dir_above. }
    assert (lookup_path (scripts_dir ++ [i]) t2 = Some x) as Hmoved.
    { assert (isdir scripts_dir t1 = true) as Hs1.
      { apply (update_dir_isdir (delete i) i bin_dir (fs w) t1);
          [apply delete_only|done| |done].
        intros Hp%prefix_length. rewrite length_app in Hp. cbn in Hp. lia. }
      apply isdir_lookup in Hs1 as [es1 Hes1].
      destruct (update_dir_lookup (<[i:=x]>) scripts_dir t1 es1 Hes1)
        as (t2' & Ht2' & Hl). rewrite Ht2 in Ht2'. injection Ht2' as <-.
      rewrite Hl. cbn. by rewrite lookup_insert_eq. }
    destruct (IH (set_fs t2 w) (delete i es)) as (t' & es' & Hrun & Hb' & Hes' & Hmv & Hfr).
    { done. }
    { done. }
    { intros k Hk. rewrite lookup_delete_ne by (intros ->; done).
      apply Hin. by apply list_elem_of_further. }
    { done. }
    { intros k Hk. cbn.
      rewrite lookup_delete_ne by (intros ->; done). rewrite Hframe.
      - apply Hfree. by apply list_elem_of_further.
      - apply Hsb. by apply list_elem_of_further.
      - apply Hss.
      - intros Hp. by apply (Hbk i k).
      - apply Hkj. intros ->. done. }
    exists t', es'. split; [|split; [done|split; [|split]]].
    + cbn [for_each]. erewrite bind_Ret; cycle 1.
      { unfold lift_fs. rewrite Hmove. reflexivity. }
      rewrite Hrun. done.
    + intros m. rewrite Hes'. destruct (decide (m = i)) as [->|Hmi].
      * rewrite (decide_True (P := i ∈ i :: items)) by apply list_elem_of_here.
        rewrite lookup_delete_eq. by case_decide.
      * rewrite lookup_delete_ne by done.
        destruct (decide (m ∈ items)) as [Hm|Hm].
        -- by rewrite decide_True by (by apply list_elem_of_further).
        -- rewrite decide_False; [done|].
           intros [?|?]%elem_of_cons; done.
    + intros k y [->|Hk]%elem_of_cons Hy.
      * rewrite Hx in Hy. injection Hy as <-.
        rewrite Hfr; [done| | |]; cbn.
        -- apply Hsb, list_elem_of_here.
        -- apply Hss.
        -- intros k Hk. split; [intros Hp; by apply (Hbk k i)|].
           apply Hkj. intros ->. done.
      * apply Hmv; [done|]. rewrite lookup_delete_ne; [done|]. intros ->. done.
    + intros q H1 H2 H3. rewrite Hfr; cbn.
      * apply Hframe; [done..| |]; apply H3, list_elem_of_here.
      * done.
      * done.
      * intros k Hk. apply H3. by apply list_elem_of_further.
Qed.

Lemma length_removelast_le (p : path) : (length (removelast p) ≤ length p)%nat.
Proof. rewrite removelast_firstn_len, length_take. lia. Qed.

(** C7, as the code has it.  When the scripts directory exists and no
    entry to be moved meets an entry of the same name there with a
    directory on either side (a name new to the scripts directory is
    moved in, and a file replaces a file of its name in a scripts
    directory that is not [bin] itself), the relocation step succeeds,
    changes nothing but the file system, leaves the [bin] directory empty
    and every one of its entries, with what is below it, under the same
    name in the scripts directory ([Scripts] when [os.name] is ["nt"],
    [bin] otherwise).  When the [bin] directory does not exist the step
    does nothing and does not fail. *)
Theorem relocate_scripts_moves_entries (venv : VirtualEnv) (w : World) :
  let lib_path := get_env_lib_path (option_pdm venv) (venv_path venv) in
  let bin_dir := lib_path ++ ["bin"] in
  let scripts_dir :=
    removelast lib_path ++ [if decide (os_name = "nt") then "Scripts" else "bin"] in
  (∀ es,
     lookup_path bin_dir (fs w) = Some (Dir es) →
     isdir scripts_dir (fs w) = true →
     (∀ item x, es !! item = Some x →
        lookup_path (scripts_dir ++ [item]) (fs w) = None
        ∨ (x = File
           ∧ lookup_path (scripts_dir ++ [item]) (fs w) = Some File
           ∧ scripts_dir ≠ bin_dir)) →
     ∃ t',
       relocate_scripts venv w = (Ret tt, set_fs t' w)
       ∧ listdir bin_dir t' = Some []
       ∧ ∀ item x, es !! item = Some x →
           lookup_path (scripts_dir ++ [item]) t' = Some x)
  ∧ (lookup_path bin_dir (fs w) = None →
     relocate_scripts venv w = (Ret tt, w)).
Proof.
  intros lib_path bin_dir scripts_dir. split.
  - intros es Hbin Hscripts Hfree.
    assert (∀ i, i ∈ (map_to_list es).*1 ↔ is_Some (es !! i)) as Hitems.
    { intros i. rewrite list_elem_of_fmap. split.
      - intros ([k y] & -> & Hin). apply elem_of_map_to_list in Hin. by eexists.
      - intros [y Hy]. exists (i, y). split; [done|].
        by apply elem_of_map_to_list. }
    destruct (relocate_loop bin_dir scripts_dir) with
      (items := (map_to_list es).*1) (w := w) (es := es)
      as (t' & es' & Hrun & Hbin' & Hes' & Hmoved & _).
    { subst bin_dir scripts_dir. rewrite !length_app. cbn.
      pose proof (length_removelast_le lib_path). lia. }
    { apply NoDup_fst_map_to_list. }
    { done. }
    { intros i. apply Hitems. }
    { done. }
    { intros i [x Hx]%Hitems.
      destruct (Hfree i x Hx) as [?|(-> & ? & ?)]; [by left|by right]. }
    exists t'. split; [|split].
    + unfold relocate_scripts. fold lib_path bin_dir scripts_dir.
      erewrite bind_Ret by reflexivity.
      unfold exists_, listdir. rewrite Hbin.
      rewrite bool_decide_eq_true_2 by (by eexists). exact Hrun.
    + unfold listdir. rewrite Hbin'.
      assert (es' = ∅) as ->.
      { apply map_empty. intros m. rewrite Hes'. case_decide as Hm; [done|].
        destruct (es !! m) eqn:Hl; [|done]. destruct Hm. apply Hitems. by eexists. }
      by rewrite map_to_list_empty.
    + intros item x Hx. apply Hmoved; [|done]. apply Hitems. by eexists.
  - intros Hbin. unfold relocate_scripts. fold lib_path bin_dir scripts_dir.
    erewrite bind_Ret by reflexivity.
    unfold exists_. rewrite Hbin.
    by rewrite bool_decide_eq_false_2 by (by intros [? ?]).
Qed.

(** *** Further properties of the hooks *)

Lemma tox_testenv_create_getcommandpath venv w t :
  clone_pdm_files (str (venv_path venv)) (str (venv_toxinidir venv)) (fs w) = Some t →
  getcommandpath (tox_testenv_create venv w).2
  = patch_getcommandpath (getsupportedinterpreter venv) (getcommandpath w).
Proof.
  intros Hclone. unfold tox_testenv_create.
  erewrite bind_Ret by (unfold lift_fs; by rewrite Hclone).
  erewrite bind_Ret by reflexivity.
  rewrite (stable_after getcommandpath) by (intros _; apply stable_ret).
  match goal with |- context [_pcall ?v ?a ?c ?w0] =>
    destruct (pcall_effect v a c w0) as (_ & _ & ->) end.
  done.
Qed.

(** X1.  The substitutions of the resolver stack, and the latest one
    decides: once two environments have been created one after the other,
    ["python"] resolves to the interpreter of the second one for every
    environment, the first included, and every other command still
    resolves as before both hooks. *)
Theorem tox_testenv_create_latest_interpreter
    (venv1 venv2 : VirtualEnv) (w : World) (t1 t2 : node) :
  clone_pdm_files (str (venv_path venv1)) (str (venv_toxinidir venv1)) (fs w)
  = Some t1 →
  clone_pdm_files (str (venv_path venv2)) (str (venv_toxinidir venv2))
    (fs (tox_testenv_create venv1 w).2)
  = Some t2 →
  (∀ self,
     getcommandpath (tox_testenv_create venv2 (tox_testenv_create venv1 w).2).2
       self "python"
     = getsupportedinterpreter venv2)
  ∧ (∀ self cmd, cmd ≠ "python" →
       getcommandpath (tox_testenv_create venv2 (tox_testenv_create venv1 w).2).2
         self cmd
       = getcommandpath w self cmd).
Proof.
  intros Hc1 Hc2.
  rewrite (tox_testenv_create_getcommandpath venv2 _ t2 Hc2).
  rewrite (tox_testenv_create_getcommandpath venv1 _ t1 Hc1).
  unfold patch_getcommandpath. split.
  - intros self. by rewrite decide_True.
  - intros self cmd Hne. by rewrite !decide_False.
Qed.

(** X2.  The dependency hook itself hands at most one command to
    [venv._pcall], that of the external tool (the install of the
    dependencies that the host tracks is the host's own subprocess, a
    separate event, and is not counted here).  It hands none when
    [skip_install] is set and no group is given.  Otherwise the command
    is [pdm install -p <path>], then [--no-default] exactly when
    [skip_install] is set and ["default"] is not among the groups, then
    one [--group] flag for each group of the list without its first
    ["default"], in the order of the list, then [--no-self]. *)
Theorem install_deps_command (venv : VirtualEnv) (w : World) :
  pcalls (tox_testenv_install_deps venv w).2
  = pcalls w ++
    (if skip_install (envconfig venv) && negb (truthy (observed_groups venv w))
     then []
     else [[option_pdm venv; "install"; "-p"; str (venv_path venv)]
           ++ (if bool_decide ("default" ∈ observed_groups venv w) then []
               else if skip_install (envconfig venv) then ["--no-default"] else [])
           ++ group_flags (default (observed_groups venv w)
                             (remove_first "default" (observed_groups venv w)))
           ++ ["--no-self"]]).
Proof.
  rewrite install_deps_pcalls. unfold install_args.
  by destruct (skip_install _), (truthy _).
Qed.

(** X3.  The hook works on the stored groups list itself.  When that list
    is not empty, the only change to the list objects is that the stored
    list loses its first ["default"] (and is unchanged when it has none);
    when it is empty or absent, every existing list object is as it was. *)
Theorem install_deps_heap (venv : VirtualEnv) (w : World) :
  (∀ l gs,
     groups (envconfig venv) = Some l → heap w !! l = Some gs → gs ≠ [] →
     heap (tox_testenv_install_deps venv w).2
     = <[l := default gs (remove_first "default" gs)]> (heap w))
  ∧ (observed_groups venv w = [] →
     ∀ l, is_Some (heap w !! l) →
       heap (tox_testenv_install_deps venv w).2 !! l = heap w !! l).
Proof.
  destruct (install_deps_after_pdm_install venv w) as [_ ->]. split.
  - intros l gs Hg Hl Hne.
    by destruct (pdm_install_stored venv w l gs Hg Hl Hne) as [_ ->].
  - intros Hobs l Hl. destruct (pdm_install_fresh venv w Hobs) as [_ ->].
    apply lookup_insert_ne. intros <-.
    apply elem_of_dom in Hl. by apply is_fresh in Hl.
Qed.

(** X4.  Because the removal of ["default"] is kept in the configuration,
    a second call on the same environment does not repeat the first one.
    With [skip_install] set and a groups list that names ["default"] once,
    the first call installs the default dependencies (no [--no-default]);
    the second call passes [--no-default] with the same groups, or runs
    nothing at all when ["default"] was the only group. *)
Theorem install_deps_second_call (venv : VirtualEnv) (w : World) l gs1 gs2 :
  skip_install (envconfig venv) = true →
  groups (envconfig venv) = Some l →
  heap w !! l = Some (gs1 ++ "default" :: gs2) →
  "default" ∉ gs1 → "default" ∉ gs2 →
  pcalls (tox_testenv_install_deps venv w).2
  = pcalls w ++
    [[option_pdm venv; "install"; "-p"; str (venv_path venv)]
     ++ group_flags (gs1 ++ gs2) ++ ["--no-self"]]
  ∧ pcalls (tox_testenv_install_deps venv (tox_testenv_install_deps venv w).2).2
    = pcalls (tox_testenv_install_deps venv w).2 ++
      (if truthy (gs1 ++ gs2)
       then [[option_pdm venv; "install"; "-p"; str (venv_path venv); "--no-default"]
             ++ group_flags (gs1 ++ gs2) ++ ["--no-self"]]
       else []).
Proof.
  intros Hskip Hg Hl H1 H2.
  assert (gs1 ++ "default" :: gs2 ≠ []) as Hne by (by destruct gs1).
  assert (observed_groups venv w = gs1 ++ "default" :: gs2) as Hobs.
  { unfold observed_groups. by rewrite Hg, Hl. }
  assert (observed_groups venv (tox_testenv_install_deps venv w).2 = gs1 ++ gs2)
    as Hobs'.
  { unfold observed_groups. rewrite Hg.
    rewrite (install_deps_stored_groups venv w l _ Hg Hl Hne).
    by rewrite remove_first_once. }
  assert ("default" ∉ gs1 ++ gs2) as Hnot.
  { intros [?|?]%elem_of_app; done. }
  split.
  - rewrite install_deps_pcalls, Hobs, (truthy_true _ Hne), orb_true_r.
    by rewrite install_args_default_once.
  - rewrite (install_deps_pcalls venv (tox_testenv_install_deps venv w).2).
    rewrite Hobs', Hskip. cbn [negb orb].
    destruct (truthy (gs1 ++ gs2)); [|done].
    unfold install_args.
    rewrite (bool_decide_eq_false_2 _ Hnot), Hskip,
      (remove_first_not_elem_of _ _ Hnot).
    done.
Qed.

(** The first phase of the hook ends in the subprocess call: what comes
    before it leaves the file system and the resolver alone. *)
Lemma pdm_install_run venv w :
  negb (skip_install (envconfig venv)) || truthy (observed_groups venv w) = true →
  ∃ w0,
    pdm_install venv w
    = _pcall venv (install_args venv (observed_groups venv w)) (venv_toxinidir venv) w0
    ∧ fs w0 = fs w ∧ getcommandpath w0 = getcommandpath w.
Proof.
  intros Hrun. unfold pdm_install.
  destruct (decide (observed_groups venv w = [])) as [Hobs|Hobs].
  - rewrite Hobs in *. rewrite orb_false_r in Hrun.
    apply negb_true_iff in Hrun.
    erewrite bind_Ret by (by apply or_empty_fresh).
    erewrite bind_Ret by (apply py_read_eq, lookup_insert_eq).
    rewrite Hrun. cbn [negb orb truthy].
    erewrite bind_Ret by reflexivity.
    rewrite bool_decide_eq_false_2 by apply not_elem_of_nil.
    erewrite bind_Ret by reflexivity.
    erewrite bind_Ret by (apply py_read_eq, lookup_insert_eq).
    unfold install_args.
    rewrite bool_decide_eq_false_2 by apply not_elem_of_nil. rewrite Hrun.
    match goal with |- ∃ w0, _pcall _ _ _ ?W = _ ∧ _ => exists W end.
    by split.
  - destruct (observed_groups_stored venv w Hobs) as (l & Hg & Hl).
    set (gs := observed_groups venv w) in *. rewrite Hg.
    erewrite bind_Ret by (by eapply or_empty_stored).
    erewrite bind_Ret by (by apply py_read_eq).
    rewrite (truthy_true gs Hobs), orb_true_r.
    erewrite bind_Ret by reflexivity.
    unfold install_args.
    destruct (decide ("default" ∈ gs)) as [Hin|Hin].
    + rewrite !(bool_decide_eq_true_2 _ Hin).
      destruct (remove_first_elem_of _ _ Hin) as [gs' Hgs']. rewrite Hgs'.
      erewrite bind_Ret; cycle 1.
      { erewrite bind_Ret by (by eapply py_remove_eq). reflexivity. }
      erewrite bind_Ret by (apply py_read_eq, lookup_insert_eq).
      rewrite foldl_group_flags.
      match goal with |- ∃ w0, _pcall _ _ _ ?W = _ ∧ _ => exists W end;
        (split; [|done]); f_equal; cbn; by rewrite <- ?app_assoc.
    + rewrite !(bool_decide_eq_false_2 _ Hin).
      rewrite (remove_first_not_elem_of _ _ Hin). cbn [default].
      destruct (skip_install (envconfig venv)).
      all: erewrite bind_Ret by reflexivity.
      all: erewrite bind_Ret by (by apply py_read_eq).
      all: rewrite foldl_group_flags.
      all: match goal with |- ∃ w0, _pcall _ _ _ ?W = _ ∧ _ => exists W end;
        (split; [|done]); f_equal; cbn; by rewrite <- ?app_assoc.
Qed.

(** X5.  When the install subprocess of the external tool fails, the hook
    raises the host's [InvocationError] at once and ends in the state in
    which the install step ended: the failed call is the last event that
    the hook reports, so the install of the dependencies that the host
    tracks is neither announced nor run, and the relocation of the
    scripts is not attempted. *)
Theorem install_deps_subprocess_failure (venv : VirtualEnv) (w : World) :
  negb (skip_install (envconfig venv)) || truthy (observed_groups venv w) = true →
  popen (getcommandpath w venv (option_pdm venv)
         :: tail (install_args venv (observed_groups venv w)))
        (venv_toxinidir venv) (fs w) = None →
  tox_testenv_install_deps venv w
  = (Raise InvocationError, (pdm_install venv w).2)
  ∧ trace (tox_testenv_install_deps venv w).2
    = trace w ++ [Activity "pdminstall" (observed_groups venv w);
                  Pcall (install_args venv (observed_groups venv w))
                        (venv_toxinidir venv)].
Proof.
  intros Hrun Hfail.
  assert (trace (pdm_install venv w).2
          = trace w ++ [Activity "pdminstall" (observed_groups venv w);
                        Pcall (install_args venv (observed_groups venv w))
                              (venv_toxinidir venv)]) as Htrace.
  { destruct (decide (observed_groups venv w = [])) as [Hobs|Hobs].
    - destruct (pdm_install_fresh venv w Hobs) as [-> _].
      rewrite Hobs in *. rewrite orb_false_r in Hrun.
      apply negb_true_iff in Hrun. by rewrite Hrun.
    - destruct (observed_groups_stored venv w Hobs) as (l & Hg & Hl).
      by destruct (pdm_install_stored venv w l _ Hg Hl Hobs) as [-> _]. }
  destruct (pdm_install_run venv w Hrun) as (w0 & Hpdm & Hfs & Hres).
  assert (pdm_install venv w
          = (Raise InvocationError,
             emit (Pcall (install_args venv (observed_groups venv w))
                         (venv_toxinidir venv)) w0)) as Hraise.
  { rewrite Hpdm. unfold _pcall.
    erewrite bind_Ret by reflexivity. erewrite bind_Ret by reflexivity.
    cbn [getcommandpath fs emit]. rewrite Hfs, Hres.
    unfold install_args at 1. cbn [app]. unfold install_args in Hfail.
    cbn [app tail] in Hfail. by rewrite Hfail. }
  unfold tox_testenv_install_deps.
  erewrite bind_Raise by exact Hraise. rewrite <- Htrace, Hraise. done.
Qed.

(** *** The package hook *)

(** X6.  The package is built at most once per session.  When the session
    already carries a [package] attribute, the hook clones the manifest
    files, rewrites and extends the install command, and returns the
    stored package: no lock is taken, no subprocess is started, and the
    session is left as it is. *)
Theorem tox_package_cached
    (session : Session) (venv : VirtualEnv) (w : World) (p : path) (t : node)
    (cmd : list string) :
  session_package w = Some p →
  clone_pdm_files (str (venv_path venv)) (str (venv_toxinidir venv)) (fs w) = Some t →
  heap w !! install_command (envconfig venv) = Some cmd →
  tox_package session venv w
  = (Ret (Some p),
     set_heap (<[install_command (envconfig venv) :=
                   patched (getsupportedinterpreter venv) cmd
                   ++ ["-t"; str (get_env_lib_path (option_pdm venv) (venv_path venv))]]>
                 (heap w))
       (set_fs t w))
  ∧ trace (tox_package session venv w).2 = trace w.
Proof.
  intros Hattr Hclone Hcmd.
  assert (tox_package session venv w
    = (Ret (Some p),
       set_heap (<[install_command (envconfig venv) :=
                     patched (getsupportedinterpreter venv) cmd
                     ++ ["-t"; str (get_env_lib_path (option_pdm venv) (venv_path venv))]]>
                   (heap w))
         (set_fs t w))) as ->; [|done].
  unfold tox_package.
  erewrite bind_Ret by (unfold lift_fs; by rewrite Hclone).
  erewrite bind_Ret by reflexivity.
  cbn [session_package set_fs]. rewrite Hattr.
  rewrite bool_decide_eq_true_2 by (by eexists).
  erewrite bind_Ret by reflexivity.
  erewrite bind_Ret by (by apply patch_python_eq).
  erewrite bind_Ret by (apply py_extend_eq, lookup_insert_eq).
  erewrite bind_Ret by reflexivity.
  cbn. by rewrite insert_insert_eq, Hattr.
Qed.

Lemma stable_acquire_lock_heap lock_file : stable heap (acquire_lock lock_file).
Proof. unfold acquire_lock. stable. Qed.

(** X7.  When the session has no package yet and every step of the build
    succeeds, the hook stores the session view as [session.package] and
    the built archive as [session.dist], returns the session view,
    releases the lock, and leaves the install command rewritten and
    extended. *)
Theorem tox_package_builds
    (session : Session) (venv : VirtualEnv) (w w0 w1 : World)
    (t t2 : node) (p sp : path) (cmd : list string) :
  let config := session_config session in
  let lock_file := toxworkdir config ++ [isolated_build_env config +:+ ".lock"] in
  skipsdist config = false →
  session_package w = None →
  clone_pdm_files (str (venv_path venv)) (str (venv_toxinidir venv)) (fs w) = Some t →
  acquire_lock lock_file (set_fs t w) = (Ret tt, w0) →
  acquire_package config venv w0 = (Ret p, w1) →
  create_session_view p (temp_dir config) (fs w1) = Some (sp, t2) →
  heap w !! install_command (envconfig venv) = Some cmd →
  (tox_package session venv w).1 = Ret (Some sp)
  ∧ session_package (tox_package session venv w).2 = Some sp
  ∧ session_dist (tox_package session venv w).2 = Some p
  ∧ fs (tox_package session venv w).2 = t2
  ∧ held_locks (tox_package session venv w).2
    = filter (λ l, l ≠ lock_file) (held_locks w1)
  ∧ heap (tox_package session venv w).2 !! install_command (envconfig venv)
    = Some (patched (getsupportedinterpreter venv) cmd
            ++ ["-t"; str (get_env_lib_path (option_pdm venv) (venv_path venv))]).
Proof.
  intros config lock_file Hskip Hattr Hclone Hlock Hacq Hview Hcmd.
  assert (heap w1 = heap w) as Hheap.
  { transitivity (heap w0).
    - change w1 with (Ret p, w1).2. rewrite <- Hacq.
      apply stable_acquire_package_heap.
    - change w0 with (Ret tt, w0).2. rewrite <- Hlock.
      exact (stable_acquire_lock_heap lock_file (set_fs t w)). }
  assert (get_package session venv (set_fs t w)
          = (Ret (Some (sp, p)), release_lock lock_file (set_fs t2 w1))) as Hget.
  { unfold get_package. fold config. rewrite Hskip. cbv zeta. fold lock_file.
    unfold hold_lock. erewrite bind_Ret by exact Hlock.
    unfold try_finally.
    erewrite bind_Ret by exact Hacq.
    erewrite bind_Ret by reflexivity. rewrite Hview.
    by erewrite bind_Ret by reflexivity. }
  assert (tox_package session venv w
    = (Ret (Some sp),
       set_heap (<[install_command (envconfig venv) :=
                     patched (getsupportedinterpreter venv) cmd
                     ++ ["-t"; str (get_env_lib_path (option_pdm venv) (venv_path venv))]]>
                   (heap w))
         (set_session (Some sp) (Some p)
            (release_lock lock_file (set_fs t2 w1))))) as ->.
  { unfold tox_package.
    erewrite bind_Ret by (unfold lift_fs; by rewrite Hclone).
    erewrite bind_Ret by reflexivity.
    cbn [session_package set_fs]. rewrite Hattr.
    rewrite bool_decide_eq_false_2 by (by intros [? ?]).
    erewrite bind_Ret; cycle 1.
    { erewrite bind_Ret by exact Hget. reflexivity. }
    erewrite bind_Ret by (apply patch_python_eq; cbn; by rewrite Hheap).
    erewrite bind_Ret by (apply py_extend_eq, lookup_insert_eq).
    erewrite bind_Ret by reflexivity.
    cbn. by rewrite insert_insert_eq, Hheap. }
  cbn. by rewrite lookup_insert_eq.
Qed.

Lemma patch_python_returns cmd interp w :
  ∃ w', patch_python cmd interp w = (Ret tt, w').
Proof.
  destruct (heap w !! cmd) as [v|] eqn:Hcmd.
  - eexists. by apply patch_python_eq.
  - exists w. unfold patch_python, bind, py_read. by rewrite Hcmd.
Qed.

Lemma stable_get_package_session session venv :
  stable (λ w, (session_package w, session_dist w)) (get_package session venv).
Proof.
  unfold get_package, hold_lock, acquire_lock, release_lock, acquire_package,
    build_sdist, tox_testenv_create, _pcall, ensure_empty_dir, new_action,
    reporter_info, setactivity, next.
  cbv zeta. stable.
Qed.

(** X8.  A failing package hook has not touched the install command nor
    the session: whatever exception it raises (from the cloning, the
    lock, a subprocess, the search for the archive, or the unpacking of
    [None]), the list objects and the attributes [package] and [dist] of
    the session are as before the call. *)
Theorem tox_package_failure_untouched
    (session : Session) (venv : VirtualEnv) (w : World) (e : exn) :
  (tox_package session venv w).1 = Raise e →
  heap (tox_package session venv w).2 = heap w
  ∧ session_package (tox_package session venv w).2 = session_package w
  ∧ session_dist (tox_package session venv w).2 = session_dist w.
Proof.
  destruct (tox_package session venv w) as [o w'] eqn:Hrun. cbn [fst snd].
  intros ->. revert Hrun.
  unfold tox_package, bind at 1, lift_fs.
  destruct (clone_pdm_files _ _ _) as [t|]; [|by intros [= <- <-]].
  unfold bind at 1, get_world.
  set (w1 := set_fs t w).
  change (heap w) with (heap w1).
  change (session_package w) with (session_package w1).
  change (session_dist w) with (session_dist w1).
  unfold bind at 1.
  match goal with |- context [match ?blk w1 with _ => _ end] =>
    set (block := blk) end.
  assert (heap (block w1).2 = heap w1) as Hheap.
  { subst block. cbn [session_package]. destruct (bool_decide _); [done|].
    apply stable_bind; [apply stable_get_package_heap|].
    intros [[??]|]; stable. }
  assert (∀ e', (block w1).1 = Raise e' →
            (session_package (block w1).2, session_dist (block w1).2)
            = (session_package w1, session_dist w1)) as Hsession.
  { subst block. cbn [session_package]. destruct (bool_decide _); [done|].
    intros e'. unfold bind.
    pose proof (stable_get_package_session session venv w1) as Hget.
    destruct (get_package session venv w1) as [[[[??]|]|e''] w2]; try done. }
  destruct (block w1) as [[[]|e'] w2]; cbn [fst snd] in *.
  - destruct (patch_python_returns (install_command (envconfig venv))
                (getsupportedinterpreter venv) w2) as [w3 Hpatch].
    erewrite bind_Ret by exact Hpatch. done.
  - intros [= -> <-]. split; [done|]. specialize (Hsession e eq_refl).
    by injection Hsession as -> ->.
Qed.

(** A lock that is not held before [get_package] is not held after it,
    however [get_package] ends. *)
Lemma get_package_releases_lock session venv w :
  let config := session_config session in
  let lock_file := toxworkdir config ++ [isolated_build_env config +:+ ".lock"] in
  lock_file ∉ held_locks w →
  lock_file ∉ held_locks (get_package session venv w).2.
Proof.
  intros config lock_file Hfree. unfold get_package. fold config.
  destruct (skipsdist config); [done|]. cbv zeta. fold lock_file.
  unfold hold_lock, bind at 1.
  destruct (acquire_lock lock_file w) as [[[]|e] w0] eqn:Hlock.
  - unfold try_finally. destruct (bind _ _ w0) as [r w1]. cbn.
    intros Hin%list_elem_of_filter. by destruct Hin.
  - assert (held_locks w0 = held_locks w) as Heq; [|cbn; by rewrite Heq].
    revert Hlock. unfold acquire_lock, bind, lift_fs, modify.
    destruct (makedirs _ _); [|by intros [= _ <-]]. cbn.
    destruct (touch _ _); [done|by intros [= _ <-]].
Qed.

(** X9.  The package hook never leaves the build lock held: when the lock
    of the build environment is free before the call, it is free after
    it, whether the hook returns or raises. *)
Theorem tox_package_releases_lock
    (session : Session) (venv : VirtualEnv) (w : World) :
  let config := session_config session in
  let lock_file := toxworkdir config ++ [isolated_build_env config +:+ ".lock"] in
  lock_file ∉ held_locks w →
  lock_file ∉ held_locks (tox_package session venv w).2.
Proof.
  intros config lock_file Hfree.
  unfold tox_package, bind at 1, lift_fs.
  destruct (clone_pdm_files _ _ _) as [t|]; [|done].
  unfold bind at 1, get_world.
  set (w1 := set_fs t w).
  change (held_locks w) with (held_locks w1) in Hfree.
  unfold bind at 1.
  match goal with |- context [match ?blk w1 with _ => _ end] =>
    set (block := blk) end.
  assert (lock_file ∉ held_locks (block w1).2) as Hblock.
  { subst block. cbn [session_package]. destruct (bool_decide _); [done|].
    unfold bind.
    pose proof (get_package_releases_lock session venv w1 Hfree) as Hget.
    by destruct (get_package session venv w1) as [[[[??]|]|e] w2]. }
  destruct (block w1) as [[[]|e] w2]; [|done]. cbn [snd] in Hblock.
  assert (stable held_locks
            (bind (patch_python (install_command (envconfig venv))
                     (getsupportedinterpreter venv))
               (λ _, bind (py_extend (install_command (envconfig venv))
                             ["-t"; str (get_env_lib_path (option_pdm venv)
                                           (venv_path venv))])
                       (λ _, bind get_world (λ w, ret (session_package w))))))
    as Htail.
  { unfold patch_python, py_extend, py_write. stable. }
  by rewrite Htail.
Qed.

(** *** The build artifact, continued *)

Lemma node_size_child (es : gmap string node) n c :
  es !! n = Some c → node_size c < node_size (Dir es).
Proof.
  intros Hn. cbn [node_size].
  rewrite (map_fold_delete_L _ _ n c es); [lia| |done].
  intros. lia.
Qed.

Lemma elem_of_visit_gen fil k : ∀ t,
  node_size t < k →
  ∀ p q, q ∈ visit_gen fil p t →
    ∃ d name, q = p ++ d ++ [name]
              ∧ fnmatch name fil = true
              ∧ is_Some (lookup_path (d ++ [name]) t).
Proof.
  induction k as [|k IH]; intros t Hsize p q Hq; [lia|].
  destruct t as [|es]; [by apply elem_of_nil in Hq|].
  cbn [visit_gen] in Hq. apply elem_of_app in Hq as [Hq|Hq].
  - rewrite map_fold_foldr in Hq.
    assert (∃ n c, (n, c) ∈ map_to_list es
                   ∧ q ∈ match c with
                         | Dir _ => visit_gen fil (p ++ [n]) c
                         | File => []
                         end) as (n & c & Hin & Hqc).
    { revert Hq. generalize (map_to_list es). intros l.
      induction l as [|[n c] l IHl]; [by intros ?%elem_of_nil|].
      cbn. intros [Hq|Hq]%elem_of_app.
      - exists n, c. split; [apply list_elem_of_here|done].
      - destruct (IHl Hq) as (n' & c' & Hin' & Hq').
        exists n', c'. split; [by apply list_elem_of_further|done]. }
    apply elem_of_map_to_list in Hin.
    destruct c as [|es']; [by apply elem_of_nil in Hqc|].
    destruct (IH (Dir es')) with (p := p ++ [n]) (q := q)
      as (d & name & -> & Hmatch & Hlook); [|done|].
    { pose proof (node_size_child es n _ Hin). lia. }
    exists (n :: d), name. split; [by rewrite <- app_assoc|]. split; [done|].
    cbn. by rewrite Hin.
  - apply list_elem_of_omap in Hq as ([n c] & Hin & Hq).
    apply elem_of_map_to_list in Hin. cbn in Hq.
    destruct (fnmatch n fil) eqn:Hmatch; [|done]. injection Hq as <-.
    exists [], n. split; [done|]. split; [done|].
    cbn. rewrite Hin. by eexists.
Qed.

Lemma fnmatch_list_literal lit : ∀ s,
  Forall (λ c, c ≠ "*"%char ∧ c ≠ "?"%char) lit →
  fnmatch_list lit s = true → s = lit.
Proof.
  induction lit as [|c lit IH]; intros s Hlit.
  - by destruct s.
  - apply Forall_cons in Hlit as [[Hstar Hq] Hlit]. cbn.
    rewrite decide_False by done. destruct s as [|d s]; [done|].
    intros [Hc Hs]%andb_true_iff.
    rewrite (bool_decide_eq_false_2 (c = "?"%char)), orb_false_r in Hc by done.
    apply bool_decide_eq_true in Hc as ->. by rewrite (IH s).
Qed.

Lemma fnmatch_list_star lit s :
  Forall (λ c, c ≠ "*"%char ∧ c ≠ "?"%char) lit →
  fnmatch_list ("*"%char :: lit) s = true → ∃ pre, s = pre ++ lit.
Proof.
  intros Hlit. induction s as [|d s IH].
  - cbn. rewrite decide_True by done. rewrite orb_false_r.
    intros Hm%fnmatch_list_literal; [|done]. by exists [].
  - intros Hm. cbn in Hm. rewrite decide_True in Hm by done.
    apply orb_true_iff in Hm as [Hm|Hm].
    + apply fnmatch_list_literal in Hm; [|done]. by exists [].
    + destruct IH as [pre ->].
      { cbn. by rewrite decide_True. }
      by exists (d :: pre).
Qed.

Lemma string_of_list_ascii_app l1 l2 :
  String.string_of_list_ascii (l1 ++ l2)
  = String.string_of_list_ascii l1 +:+ String.string_of_list_ascii l2.
Proof. induction l1 as [|c l1 IH]; [done|]. cbn. by rewrite IH. Qed.

(** What the pattern of the build means for a name. *)
Lemma fnmatch_tar_gz name :
  fnmatch name "*.tar.gz" = true → ∃ stem, name = stem +:+ ".tar.gz".
Proof.
  unfold fnmatch. intros Hm.
  apply (fnmatch_list_star (String.list_ascii_of_string ".tar.gz")) in Hm
    as [pre Hpre].
  - exists (String.string_of_list_ascii pre).
    rewrite <- (String.string_of_list_ascii_of_string name), Hpre.
    by rewrite string_of_list_ascii_app.
  - cbn. repeat (apply Forall_cons; split; [done|]). apply Forall_nil_2.
Qed.

(** X10.  Whatever [acquire_package] returns is an entry of the file
    system strictly below the build directory (at any depth) whose base
    name ends in [.tar.gz]. *)
Theorem acquire_package_result
    (config : Config) (venv : VirtualEnv) (w w' : World) (p : path) :
  acquire_package config venv w = (Ret p, w') →
  ∃ d stem,
    p = (toxworkdir config ++ [isolated_build_env config])
        ++ d ++ [stem +:+ ".tar.gz"]
    ∧ is_Some (lookup_path p (fs w')).
Proof.
  intros Hrun.
  unfold acquire_package in Hrun. cbv zeta in Hrun. unfold bind at 1 in Hrun.
  destruct (build_sdist config venv w) as [[[]|e] w1]; [|done].
  erewrite bind_Ret in Hrun by reflexivity.
  unfold visit in Hrun.
  destruct (lookup_path _ (fs w1)) as [[|es]|] eqn:Htarget; try done.
  destruct (visit_gen _ _ _) as [|p0 rest] eqn:Hvisit; [done|].
  cbn in Hrun. injection Hrun as -> <-.
  destruct (elem_of_visit_gen "*.tar.gz" (S (node_size (Dir es))) (Dir es))
    with (p := toxworkdir config ++ [isolated_build_env config]) (q := p)
    as (d & name & -> & Hmatch & Hlook); [lia| |].
  { rewrite Hvisit. apply list_elem_of_here. }
  destruct (fnmatch_tar_gz name Hmatch) as [stem ->].
  exists d, stem. split; [done|].
  cbn [fs emit]. by rewrite lookup_path_app, Htarget.
Qed.

Lemma elem_of_foldr_uncurry {A B C} (g : A → B → list C) (l : list (A * B)) q :
  q ∈ foldr (uncurry (λ n c acc, g n c ++ acc)) [] l
  ↔ ∃ n c, (n, c) ∈ l ∧ q ∈ g n c.
Proof.
  induction l as [|[n c] l IH]; cbn.
  - split; [by intros ?%elem_of_nil|]. by intros (? & ? & ?%elem_of_nil & _).
  - rewrite elem_of_app, IH. split.
    + intros [Hq|(n' & c' & Hin & Hq)].
      * exists n, c. split; [apply list_elem_of_here|done].
      * exists n', c'. split; [by apply list_elem_of_further|done].
    + intros (n' & c' & [Heq|Hin]%elem_of_cons & Hq).
      * injection Heq as -> ->. by left.
      * right. by exists n', c'.
Qed.

(** The visit misses nothing: every entry below the directory whose base
    name matches is among the paths it yields. *)
Lemma visit_gen_complete fil : ∀ d t p name,
  is_Some (lookup_path (d ++ [name]) t) →
  fnmatch name fil = true →
  p ++ d ++ [name] ∈ visit_gen fil p t.
Proof.
  induction d as [|n d IH]; intros t p name Hlook Hmatch.
  - destruct t as [|es]; [by destruct Hlook|]. cbn in Hlook.
    destruct (es !! name) as [c|] eqn:Hn; [|by destruct Hlook].
    cbn [visit_gen]. apply elem_of_app. right.
    apply list_elem_of_omap. exists (name, c).
    split; [by apply elem_of_map_to_list|]. cbn. by rewrite Hmatch.
  - destruct t as [|es]; [by destruct Hlook|]. cbn in Hlook.
    destruct (es !! n) as [c|] eqn:Hn; [|by destruct Hlook]. cbn in Hlook.
    destruct c as [|es']; [by destruct d, Hlook|].
    cbn [visit_gen]. apply elem_of_app. left. rewrite map_fold_foldr.
    apply (elem_of_foldr_uncurry
             (λ n c, match c with
                     | Dir _ => visit_gen fil (p ++ [n]) c
                     | File => []
                     end)).
    exists n, (Dir es'). split; [by apply elem_of_map_to_list|].
    specialize (IH (Dir es') (p ++ [n]) name Hlook Hmatch).
    by rewrite <- app_assoc in IH.
Qed.

(** The matches inside the sub-directories come first: when a
    sub-directory holds one, the first path of the visit is inside a
    sub-directory. *)
Lemma visit_gen_subdirs_first fil (es : gmap string node) p n d name :
  is_Some (lookup_path (n :: d ++ [name]) (Dir es)) →
  fnmatch name fil = true →
  ∃ n' d' name' rest,
    visit_gen fil p (Dir es) = (p ++ n' :: d' ++ [name']) :: rest.
Proof.
  intros Hlook Hmatch.
  pose proof (visit_gen_complete fil (n :: d) (Dir es) p name Hlook Hmatch) as Hin.
  cbn [visit_gen] in *. revert Hin. rewrite map_fold_foldr.
  set (g := λ n c, match c with
                   | Dir _ => visit_gen fil (p ++ [n]) c
                   | File => []
                   end).
  intros Hin.
  assert (∃ q rest, foldr (uncurry (λ n c acc, g n c ++ acc)) [] (map_to_list es)
                    = q :: rest) as (q & rest & Heq).
  { cbn in Hlook. destruct (es !! n) as [c|] eqn:Hn; [|by destruct Hlook].
    cbn in Hlook. destruct c as [|es']; [by destruct d, Hlook|].
    assert (p ++ n :: d ++ [name]
            ∈ foldr (uncurry (λ n c acc, g n c ++ acc)) [] (map_to_list es)) as Hsub.
    { apply (elem_of_foldr_uncurry g). exists n, (Dir es').
      split; [by apply elem_of_map_to_list|]. subst g. cbn beta iota.
      pose proof (visit_gen_complete fil d (Dir es') (p ++ [n]) name Hlook Hmatch)
        as Hc.
      by rewrite <- app_assoc in Hc. }
    destruct (foldr _ _ _) as [|q rest]; [by apply elem_of_nil in Hsub|].
    by exists q, rest. }
  assert (q ∈ foldr (uncurry (λ n c acc, g n c ++ acc)) [] (map_to_list es)) as Hq
    by (rewrite Heq; apply list_elem_of_here).
  apply (elem_of_foldr_uncurry g) in Hq as (n' & c' & Hc' & Hq).
  apply elem_of_map_to_list in Hc'. subst g. cbn beta iota in Hq.
  destruct c' as [|es']; [by apply elem_of_nil in Hq|].
  destruct (elem_of_visit_gen fil (S (node_size (Dir es'))) (Dir es'))
    with (p := p ++ [n']) (q := q) as (d' & name' & -> & _ & _); [lia|done|].
  exists n', d', name', (rest ++ omap (λ e, if fnmatch e.1 fil
                                            then Some (p ++ [e.1]) else None)
                                   (map_to_list es)).
  rewrite Heq. cbn. by rewrite <- app_assoc.
Qed.

Lemma fnmatch_list_refl lit :
  Forall (λ c, c ≠ "*"%char ∧ c ≠ "?"%char) lit → fnmatch_list lit lit = true.
Proof.
  induction 1 as [|c lit [Hstar _] _ IH]; [done|]. cbn.
  rewrite decide_False by done. by rewrite bool_decide_eq_true_2, IH.
Qed.

Lemma fnmatch_list_suffix lit pre :
  Forall (λ c, c ≠ "*"%char ∧ c ≠ "?"%char) lit →
  fnmatch_list ("*"%char :: lit) (pre ++ lit) = true.
Proof.
  intros Hlit. induction pre as [|d pre IH].
  - cbn [app]. cbn. rewrite decide_True by done.
    destruct lit; by rewrite fnmatch_list_refl.
  - cbn [app]. cbn. rewrite decide_True by done.
    apply orb_true_iff. right.
    cbn in IH. by rewrite decide_True in IH.
Qed.

Lemma list_ascii_of_string_app s1 s2 :
  String.list_ascii_of_string (s1 +:+ s2)
  = String.list_ascii_of_string s1 ++ String.list_ascii_of_string s2.
Proof. induction s1 as [|c s1 IH]; [done|]. cbn. rewrite <- IH. reflexivity. Qed.

(** Every name with the suffix matches the pattern of the build. *)
Lemma tar_gz_fnmatch stem : fnmatch (stem +:+ ".tar.gz") "*.tar.gz" = true.
Proof.
  unfold fnmatch. rewrite list_ascii_of_string_app.
  apply (fnmatch_list_suffix (String.list_ascii_of_string ".tar.gz")).
  cbn. repeat (apply Forall_cons; split; [done|]). apply Forall_nil_2.
Qed.

(** An exception of [acquire_package] leaves [get_package], the lock being
    released on the way, and the package hook as it is. *)
Lemma acquire_package_failure_propagates
    (session : Session) (venv : VirtualEnv) (w0 w1 : World) (e : exn) :
  let config := session_config session in
  let lock_file := toxworkdir config ++ [isolated_build_env config +:+ ".lock"] in
  acquire_package config venv w0 = (Raise e, w1) →
  (∀ w, skipsdist config = false →
     acquire_lock lock_file w = (Ret tt, w0) →
     get_package session venv w = (Raise e, release_lock lock_file w1))
  ∧ (∀ w t, skipsdist config = false →
       session_package w = None →
       clone_pdm_files (str (venv_path venv)) (str (venv_toxinidir venv)) (fs w)
       = Some t →
       acquire_lock lock_file (set_fs t w) = (Ret tt, w0) →
       tox_package session venv w = (Raise e, release_lock lock_file w1)).
Proof.
  intros config lock_file Hraise.
  assert (∀ w, skipsdist config = false →
            acquire_lock lock_file w = (Ret tt, w0) →
            get_package session venv w
            = (Raise e, release_lock lock_file w1)) as Hget.
  { intros w Hskip Hlock. unfold get_package. fold config. rewrite Hskip.
    cbv zeta. fold lock_file. unfold hold_lock.
    erewrite bind_Ret by exact Hlock.
    unfold try_finally. by erewrite bind_Raise by exact Hraise. }
  split; [done|].
  intros w t Hskip Hattr Hclone Hlock. unfold tox_package.
  erewrite bind_Ret by (unfold lift_fs; by rewrite Hclone).
  erewrite bind_Ret by reflexivity.
  cbn [session_package set_fs]. rewrite Hattr.
  rewrite bool_decide_eq_false_2 by (by intros [? ?]).
  erewrite bind_Raise; [done|].
  erewrite bind_Raise; [done|]. by apply Hget.
Qed.

(** C6, as the code has it.  Once the build subcommand has completed, the
    names below the build directory decide the outcome of
    [acquire_package].  If some entry below it, at any depth and whether
    a file or a directory, has a base name ending in [.tar.gz], the
    result is the first path that the visit yields: an entry of this
    kind, and one inside a sub-directory whenever a sub-directory holds
    one.  If the build directory exists and no entry below it has such a
    name, [next] raises [StopIteration]; if the build directory does not
    exist, listing it raises [OSError].  In both cases no value is
    returned, and the same exception leaves [get_package] (the lock being
    released on the way) and the package hook [tox_package]. *)
Theorem acquire_package_outcome
    (session : Session) (venv : VirtualEnv) (w0 w1 : World) :
  let config := session_config session in
  let target_dir := toxworkdir config ++ [isolated_build_env config] in
  let lock_file := toxworkdir config ++ [isolated_build_env config +:+ ".lock"] in
  let leaves_hooks (e : exn) :=
    acquire_package config venv w0 = (Raise e, w1)
    ∧ (∀ w, skipsdist config = false →
         acquire_lock lock_file w = (Ret tt, w0) →
         get_package session venv w = (Raise e, release_lock lock_file w1))
    ∧ (∀ w t, skipsdist config = false →
         session_package w = None →
         clone_pdm_files (str (venv_path venv)) (str (venv_toxinidir venv)) (fs w)
         = Some t →
         acquire_lock lock_file (set_fs t w) = (Ret tt, w0) →
         tox_package session venv w = (Raise e, release_lock lock_file w1)) in
  build_sdist config venv w0 = (Ret tt, w1) →
  (∀ d stem,
     is_Some (lookup_path (target_dir ++ d ++ [stem +:+ ".tar.gz"]) (fs w1)) →
     ∃ d' stem' rest,
       acquire_package config venv w0
       = (Ret (target_dir ++ d' ++ [stem' +:+ ".tar.gz"]),
          emit (Activity "buildpkg"
                  [str (target_dir ++ d' ++ [stem' +:+ ".tar.gz"])]) w1)
       ∧ visit "*.tar.gz" target_dir (fs w1)
         = Some ((target_dir ++ d' ++ [stem' +:+ ".tar.gz"]) :: rest)
       ∧ is_Some (lookup_path (target_dir ++ d' ++ [stem' +:+ ".tar.gz"]) (fs w1))
       ∧ (d ≠ [] → d' ≠ []))
  ∧ (isdir target_dir (fs w1) = true →
     (∀ d stem,
        lookup_path (target_dir ++ d ++ [stem +:+ ".tar.gz"]) (fs w1) = None) →
     leaves_hooks StopIteration)
  ∧ (isdir target_dir (fs w1) = false → leaves_hooks OSError).
Proof.
  intros config target_dir lock_file leaves_hooks Hbuild.
  assert (∀ it, visit "*.tar.gz" target_dir (fs w1) = it →
            acquire_package config venv w0
            = bind (next it)
                (λ path, bind (setactivity "buildpkg" [str path]) (λ _, ret path)) w1)
    as Hacq.
  { intros it <-. unfold acquire_package. cbv zeta.
    erewrite bind_Ret by exact Hbuild.
    by erewrite bind_Ret by reflexivity. }
  assert (∀ e, acquire_package config venv w0 = (Raise e, w1) → leaves_hooks e)
    as Hleave.
  { intros e Hraise. split; [done|].
    by apply (acquire_package_failure_propagates session venv w0 w1 e). }
  split; [|split].
  - intros d stem Hsome. rewrite lookup_path_app in Hsome.
    destruct (lookup_path target_dir (fs w1)) as [x|] eqn:Htarget;
      [|by destruct Hsome].
    cbn in Hsome. destruct x as [|es]; [by destruct d, Hsome|].
    assert (visit "*.tar.gz" target_dir (fs w1)
            = Some (visit_gen "*.tar.gz" target_dir (Dir es))) as Hvisit.
    { unfold visit. by rewrite Htarget. }
    pose proof (visit_gen_complete "*.tar.gz" d (Dir es) target_dir _ Hsome
                  (tar_gz_fnmatch stem)) as Hin.
    destruct (visit_gen "*.tar.gz" target_dir (Dir es)) as [|q rest] eqn:Hgen;
      [by apply elem_of_nil in Hin|].
    destruct (elem_of_visit_gen "*.tar.gz" (S (node_size (Dir es))) (Dir es))
      with (p := target_dir) (q := q)
      as (d' & name' & -> & Hmatch' & Hlook'); [lia| |].
    { rewrite Hgen. apply list_elem_of_here. }
    destruct (fnmatch_tar_gz name' Hmatch') as [stem' ->].
    exists d', stem', rest. split; [|split; [done|split]].
    + by rewrite (Hacq _ Hvisit).
    + by rewrite lookup_path_app, Htarget.
    + intros Hd ->. destruct d as [|n d]; [done|].
      destruct (visit_gen_subdirs_first "*.tar.gz" es target_dir n d _ Hsome
                  (tar_gz_fnmatch stem)) as (n' & d'' & name'' & rest' & Hfirst).
      rewrite Hgen in Hfirst. injection Hfirst as Hq _.
      apply app_inv_head in Hq. cbn in Hq. injection Hq as _ Hq.
      by destruct d''.
  - intros Hdir Hnone. apply Hleave.
    apply isdir_lookup in Hdir as [es Htarget].
    assert (visit "*.tar.gz" target_dir (fs w1) = Some []) as Hvisit.
    { unfold visit. rewrite Htarget. f_equal.
      destruct (visit_gen "*.tar.gz" target_dir (Dir es)) as [|q rest] eqn:Hgen;
        [done|].
      destruct (elem_of_visit_gen "*.tar.gz" (S (node_size (Dir es))) (Dir es))
        with (p := target_dir) (q := q)
        as (d' & name' & -> & Hmatch' & Hlook'); [lia| |].
      { rewrite Hgen. apply list_elem_of_here. }
      destruct (fnmatch_tar_gz name' Hmatch') as [stem' ->].
      specialize (Hnone d' stem'). rewrite lookup_path_app, Htarget in Hnone.
      cbn in Hnone. rewrite Hnone in Hlook'. by destruct Hlook'. }
    by rewrite (Hacq _ Hvisit).
  - intros Hdir. apply Hleave.
    assert (visit "*.tar.gz" target_dir (fs w1) = None) as Hvisit.
    { unfold visit. unfold isdir in Hdir.
      by destruct (lookup_path target_dir (fs w1)) as [[|es]|]. }
    by rewrite (Hacq _ Hvisit).
Qed.

Lemma ensure_empty_dir_effect p w :
  trace (ensure_empty_dir p w).2
  = trace w ++ (if exists_ p (fs w)
                then [Info ("  removing " +:+ str p)] else [])
  ∧ getcommandpath (ensure_empty_dir p w).2 = getcommandpath w.
Proof.
  unfold ensure_empty_dir. erewrite bind_Ret by reflexivity.
  destruct (exists_ p (fs w)); [|by rewrite app_nil_r].
  unfold reporter_info. erewrite bind_Ret by reflexivity.
  erewrite bind_Ret by reflexivity.
  unfold lift_fs. by destruct (makedirs _ _).
Qed.

(** X11.  A build that completes has registered the interpreter with the
    external tool, in the environment directory, before it has run the
    build subcommand, in the project root; these are its only two
    subprocesses, in that order.  It also leaves the resolver substituted,
    as the environment-creation hook does. *)
Theorem build_sdist_subprocesses
    (config : Config) (venv : VirtualEnv) (w w1 : World) :
  let target_dir := toxworkdir config ++ [isolated_build_env config] in
  build_sdist config venv w = (Ret tt, w1) →
  trace w1
  = trace w
    ++ (if exists_ target_dir (fs w)
        then [Info ("  removing " +:+ str target_dir)] else [])
    ++ [NewAction "buildpkg";
        Pcall [option_pdm venv; "use"; "-f"; getsupportedinterpreter venv]
              (venv_path venv);
        Pcall [option_pdm venv; "build"; "--no-wheel"; "-d"; str target_dir]
              (venv_toxinidir venv)]
  ∧ getcommandpath w1
    = patch_getcommandpath (getsupportedinterpreter venv) (getcommandpath w).
Proof.
  intros target_dir Hrun. unfold build_sdist in Hrun. cbv zeta in Hrun.
  fold target_dir in Hrun. unfold bind at 1 in Hrun.
  destruct (ensure_empty_dir_effect target_dir w) as [Htr Hres].
  destruct (ensure_empty_dir target_dir w) as [[[]|e] wa]; [|done].
  cbn [snd] in Htr, Hres.
  unfold new_action in Hrun. erewrite bind_Ret in Hrun by reflexivity.
  unfold bind at 1 in Hrun.
  destruct (tox_testenv_create venv (emit (NewAction "buildpkg") wa))
    as [[b|e] wb] eqn:Hcreate; [|done].
  assert (∃ t, clone_pdm_files (str (venv_path venv)) (str (venv_toxinidir venv))
                 (fs wa) = Some t) as [t Hclone].
  { revert Hcreate. unfold tox_testenv_create, bind at 1, lift_fs. cbn [fs emit].
    destruct (clone_pdm_files _ _ _); [by eexists|done]. }
  assert (trace wb = trace wa ++ [NewAction "buildpkg";
            Pcall [option_pdm venv; "use"; "-f"; getsupportedinterpreter venv]
                  (venv_path venv)]
          ∧ getcommandpath wb
            = patch_getcommandpath (getsupportedinterpreter venv)
                (getcommandpath wa)) as [Htrb Hresb].
  { change wb with (Ret b, wb).2. rewrite <- Hcreate. split.
    - unfold tox_testenv_create.
      erewrite bind_Ret by (unfold lift_fs; cbn [fs emit]; by rewrite Hclone).
      erewrite bind_Ret by reflexivity.
      rewrite (stable_after trace) by (intros _; apply stable_ret).
      match goal with |- context [_pcall ?v ?a ?c ?w0] =>
        destruct (pcall_effect v a c w0) as (-> & _ & _) end.
      cbn. by rewrite <- app_assoc.
    - by rewrite (tox_testenv_create_getcommandpath venv _ t). }
  match type of Hrun with _pcall ?v ?a ?c ?w0 = _ =>
    destruct (pcall_effect v a c w0) as (Htrc & _ & Hresc) end.
  rewrite Hrun in Htrc, Hresc. cbn [snd] in Htrc, Hresc.
  rewrite Htrc, Hresc, Htrb, Hresb, Htr, Hres.
  split; [|done]. by rewrite <- !app_assoc.
Qed.

(** X12.  The relocation of the scripts stays inside the two directories:
    under the conditions of a successful relocation (the scripts
    directory exists, and every entry is new to it or a file replacing a
    file), a path that is
    neither in or above the [bin] directory nor in or above the scripts
    directory holds after the step what it held before. *)
Theorem relocate_scripts_frame
    (venv : VirtualEnv) (w : World) (es : gmap string node) (q : path) :
  let lib_path := get_env_lib_path (option_pdm venv) (venv_path venv) in
  let bin_dir := lib_path ++ ["bin"] in
  let scripts_dir :=
    removelast lib_path ++ [if decide (os_name = "nt") then "Scripts" else "bin"] in
  lookup_path bin_dir (fs w) = Some (Dir es) →
  isdir scripts_dir (fs w) = true →
  (∀ item x, es !! item = Some x →
     lookup_path (scripts_dir ++ [item]) (fs w) = None
     ∨ (x = File
        ∧ lookup_path (scripts_dir ++ [item]) (fs w) = Some File
        ∧ scripts_dir ≠ bin_dir)) →
  ¬ q `prefix_of` bin_dir → ¬ bin_dir `prefix_of` q →
  ¬ q `prefix_of` scripts_dir → ¬ scripts_dir `prefix_of` q →
  lookup_path q (fs (relocate_scripts venv w).2) = lookup_path q (fs w).
Proof.
  intros lib_path bin_dir scripts_dir Hbin Hscripts Hfree Hqb Hbq Hqs Hsq.
  assert (∀ i, i ∈ (map_to_list es).*1 ↔ is_Some (es !! i)) as Hitems.
  { intros i. rewrite list_elem_of_fmap. split.
    - intros ([k y] & -> & Hin). apply elem_of_map_to_list in Hin. by eexists.
    - intros [y Hy]. exists (i, y). split; [done|].
      by apply elem_of_map_to_list. }
  destruct (relocate_loop bin_dir scripts_dir) with
    (items := (map_to_list es).*1) (w := w) (es := es)
    as (t' & es' & Hrun & _ & _ & _ & Hframe).
  { subst bin_dir scripts_dir. rewrite !length_app. cbn.
    pose proof (length_removelast_le lib_path). lia. }
  { apply NoDup_fst_map_to_list. }
  { done. }
  { intros i. apply Hitems. }
  { done. }
  { intros i [x Hx]%Hitems.
    destruct (Hfree i x Hx) as [?|(-> & ? & ?)]; [by left|by right]. }
  assert (relocate_scripts venv w = (Ret tt, set_fs t' w)) as ->.
  { unfold relocate_scripts. fold lib_path bin_dir scripts_dir.
    erewrite bind_Ret by reflexivity.
    unfold exists_, listdir. rewrite Hbin.
    rewrite bool_decide_eq_true_2 by (by eexists). exact Hrun. }
  cbn [snd fs set_fs]. apply Hframe; [done..|].
  intros k _. split; intros Hp.
  - apply Hbq. etrans; [|exact Hp]. by apply prefix_app_r.
  - apply Hsq. etrans; [|exact Hp]. by apply prefix_app_r.
Qed.

(** X13.  The report hook replaces every ["python"] token of the
    dependency-listing command, not only the first one: when the
    interpreter is not itself called ["python"], no such token is left
    after the hook; the list has grown by two tokens at its end, [--path]
    and the library directory of the environment, and every other token
    has kept its place. *)
Theorem tox_runenvreport_replaces_every_python
    (venv : VirtualEnv) (w : World) (cmd : list string) :
  heap w !! list_dependencies_command (envconfig venv) = Some cmd →
  getsupportedinterpreter venv ≠ "python" →
  ∃ cmd',
    heap (tox_runenvreport venv w).2 !! list_dependencies_command (envconfig venv)
    = Some cmd'
    ∧ ("python" ∉ cmd')
    ∧ length cmd' = length cmd + 2
    ∧ (∀ i arg, cmd !! i = Some arg → arg ≠ "python" → cmd' !! i = Some arg)
    ∧ (∀ i, cmd !! i = Some "python" →
         cmd' !! i = Some (getsupportedinterpreter venv))
    ∧ drop (length cmd) cmd'
      = ["--path"; str (get_env_lib_path (option_pdm venv) (venv_path venv))].
Proof.
  intros Hcmd Hinterp. rewrite (tox_runenvreport_eq venv cmd w Hcmd).
  eexists. split; [apply lookup_insert_eq|]. unfold patched.
  split; [|split; [|split; [|split]]]; cycle 4.
  { rewrite drop_app_length'; [done|]. by rewrite length_fmap. }
  - intros [Hin|Hin]%elem_of_app.
    + apply list_elem_of_fmap in Hin as (arg & Harg & _).
      case_decide; congruence.
    + apply elem_of_cons in Hin as [?|Hin]; [done|].
      apply elem_of_cons in Hin as [Hin|Hin]; [|by apply elem_of_nil in Hin].
      by apply (str_not_python (get_env_lib_path (option_pdm venv) (venv_path venv))).
  - rewrite length_app, length_fmap. cbn. lia.
  - intros i arg Hi Harg.
    rewrite lookup_app_l by (rewrite length_fmap; by eapply lookup_lt_Some).
    rewrite list_lookup_fmap, Hi. cbn. by rewrite decide_False.
  - intros i Hi.
    rewrite lookup_app_l by (rewrite length_fmap; by eapply lookup_lt_Some).
    rewrite list_lookup_fmap, Hi. cbn. by rewrite decide_True.
Qed.

(** X14.  The relocation of the scripts can be repeated: after a
    successful relocation the [bin] directory exists and is empty, and a
    second run of the step returns without changing anything. *)
Theorem relocate_scripts_idempotent
    (venv : VirtualEnv) (w : World) (es : gmap string node) :
  let lib_path := get_env_lib_path (option_pdm venv) (venv_path venv) in
  let bin_dir := lib_path ++ ["bin"] in
  let scripts_dir :=
    removelast lib_path ++ [if decide (os_name = "nt") then "Scripts" else "bin"] in
  lookup_path bin_dir (fs w) = Some (Dir es) →
  isdir scripts_dir (fs w) = true →
  (∀ item x, es !! item = Some x →
     lookup_path (scripts_dir ++ [item]) (fs w) = None
     ∨ (x = File
        ∧ lookup_path (scripts_dir ++ [item]) (fs w) = Some File
        ∧ scripts_dir ≠ bin_dir)) →
  listdir bin_dir (fs (relocate_scripts venv w).2) = Some []
  ∧ relocate_scripts venv (relocate_scripts venv w).2
    = (Ret tt, (relocate_scripts venv w).2).
Proof.
  intros lib_path bin_dir scripts_dir Hbin Hscripts Hfree.
  assert (∀ i, i ∈ (map_to_list es).*1 ↔ is_Some (es !! i)) as Hitems.
  { intros i. rewrite list_elem_of_fmap. split.
    - intros ([k y] & -> & Hin). apply elem_of_map_to_list in Hin. by eexists.
    - intros [y Hy]. exists (i, y). split; [done|].
      by apply elem_of_map_to_list. }
  destruct (relocate_loop bin_dir scripts_dir) with
    (items := (map_to_list es).*1) (w := w) (es := es)
    as (t' & es' & Hrun & Hbin' & Hes' & _ & _).
  { subst bin_dir scripts_dir. rewrite !length_app. cbn.
    pose proof (length_removelast_le lib_path). lia. }
  { apply NoDup_fst_map_to_list. }
  { done. }
  { intros i. apply Hitems. }
  { done. }
  { intros i [x Hx]%Hitems.
    destruct (Hfree i x Hx) as [?|(-> & ? & ?)]; [by left|by right]. }
  assert (es' = ∅) as ->.
  { apply map_empty. intros m. rewrite Hes'. case_decide as Hm; [done|].
    destruct (es !! m) eqn:Hl; [|done]. destruct Hm. apply Hitems. by eexists. }
  assert (relocate_scripts venv w = (Ret tt, set_fs t' w)) as ->.
  { unfold relocate_scripts. fold lib_path bin_dir scripts_dir.
    erewrite bind_Ret by reflexivity.
    unfold exists_, listdir. rewrite Hbin.
    rewrite bool_decide_eq_true_2 by (by eexists). exact Hrun. }
  cbn [snd]. split.
  { unfold listdir. cbn [fs set_fs]. by rewrite Hbin', map_to_list_empty. }
  unfold relocate_scripts. fold lib_path bin_dir scripts_dir.
  erewrite bind_Ret by reflexivity.
  unfold exists_, listdir. cbn [fs set_fs]. rewrite Hbin'.
  rewrite bool_decide_eq_true_2 by (by eexists).
  by rewrite map_to_list_empty.
Qed.

(** X15.  The install of the dependencies that the host tracks.  Once the
    install step of the external tool has returned, the hook announces
    these dependencies, joined by [", "], under [installdeps] and then
    lets the host install them with the install command as it is stored
    at that moment; when there is no such dependency it does neither.
    Nothing else is reported until the hook ends: the relocation of the
    scripts is silent. *)
Theorem install_deps_host_install (venv : VirtualEnv) (w w1 : World) :
  pdm_install venv w = (Ret tt, w1) →
  trace (tox_testenv_install_deps venv w).2
  = trace w1 ++
    (if truthy (get_resolved_dependencies venv)
     then [Activity "installdeps"
             [String.concat ", " (get_resolved_dependencies venv)];
           HostInstall (default [] (heap w1 !! install_command (envconfig venv)))
                       (get_resolved_dependencies venv)]
     else []).
Proof.
  intros Hpdm. unfold tox_testenv_install_deps.
  erewrite bind_Ret by exact Hpdm.
  rewrite (stable_after trace); cycle 1.
  { intros _. apply stable_bind; [|intros ?; apply stable_ret].
    unfold relocate_scripts. stable. }
  unfold install_resolved_dependencies.
  destruct (truthy (get_resolved_dependencies venv)); [|by rewrite app_nil_r].
  unfold setactivity, _install.
  erewrite bind_Ret by reflexivity. erewrite bind_Ret by reflexivity.
  erewrite bind_Ret by reflexivity. erewrite bind_Ret by reflexivity.
  cbn [heap fs emit].
  destruct (host_install _ _ _); cbn; by rewrite <- app_assoc.
Qed.


End Hooks.

(** ** The hooks on the concrete project *)

Import Demo.

(** With [skip_install] and the groups [dev] and [test], the install
    command carries [--no-default] and both groups. *)
Lemma install_deps_skip_install_witness :
  skip_install (envconfig (demo_venv false true)) = true
  ∧ pcalls (tox_testenv_install_deps demo_popen demo_get_env_lib_path
              demo_host_install "posix" (demo_venv false true)
              (demo_world true ["dev"; "test"])).2
    = [["pdm"; "install"; "-p"; "/proj/.tox/py"; "--no-default";
        "--group"; "dev"; "--group"; "test"; "--no-self"]].
Proof.
  split; [reflexivity|].
  destruct (install_deps_skip_install demo_popen demo_get_env_lib_path
              demo_host_install "posix" (demo_venv false true)
              (demo_world true ["dev"; "test"]) eq_refl) as [_ Hgroups].
  rewrite Hgroups; [reflexivity|discriminate|].
  vm_compute. intros Hin. by repeat (apply elem_of_cons in Hin as [?|Hin]);
    try apply elem_of_nil in Hin.
Defined.

(** With [skip_install] and an empty groups list, the hook runs no install
    command: none of its calls contains [--no-default]. *)
Lemma install_deps_skip_no_groups_no_command :
  skip_install (envconfig (demo_venv false true)) = true
  ∧ observed_groups (demo_venv false true) (demo_world true []) = []
  ∧ ¬ ∃ args,
        args ∈ pcalls (tox_testenv_install_deps demo_popen demo_get_env_lib_path
                         demo_host_install "posix" (demo_venv false true)
                         (demo_world true [])).2
        ∧ "--no-default" ∈ args.
Proof.
  split; [reflexivity|]. split; [reflexivity|].
  assert (pcalls (tox_testenv_install_deps demo_popen demo_get_env_lib_path
                    demo_host_install "posix" (demo_venv false true)
                    (demo_world true [])).2 = []) as ->
    by (vm_compute; reflexivity).
  intros (args & Hin & _). by apply elem_of_nil in Hin.
Qed.

Lemma get_package_skipsdist_witness :
  skipsdist (session_config (demo_session true)) = true
  ∧ get_package demo_popen demo_clone_pdm_files demo_create_session_view
      (demo_session true) (demo_venv true false) (demo_world true [])
    = (Ret None, emit (Info "skipping sdist step") (demo_world true []))
  ∧ fs (get_package demo_popen demo_clone_pdm_files demo_create_session_view
          (demo_session true) (demo_venv true false) (demo_world true [])).2
    = demo_fs true.
Proof.
  split; [reflexivity|].
  destruct (get_package_skipsdist demo_popen demo_clone_pdm_files
              demo_create_session_view (demo_session true) (demo_venv true false)
              (demo_world true []) eq_refl) as (Hrun & Hfs & _).
  split; [exact Hrun|exact Hfs].
Defined.

Lemma tox_testenv_create_patches_resolver_witness :
  demo_clone_pdm_files (str (venv_path (demo_venv false false)))
    (str (venv_toxinidir (demo_venv false false))) (fs (demo_world true []))
  = Some (demo_fs true)
  ∧ (∀ self,
       getcommandpath
         (tox_testenv_create demo_popen demo_clone_pdm_files
            (demo_venv false false) (demo_world true [])).2 self "python"
       = "/proj/.tox/py/bin/python")
  ∧ (∀ self cmd, cmd ≠ "python" →
       getcommandpath
         (tox_testenv_create demo_popen demo_clone_pdm_files
            (demo_venv false false) (demo_world true [])).2 self cmd
       = "/usr/bin/" +:+ cmd).
Proof.
  split; [reflexivity|].
  destruct (tox_testenv_create_patches_resolver demo_popen demo_clone_pdm_files
              (demo_venv false false) (demo_world true []) (demo_fs true) eq_refl)
    as (_ & Hpython & Hother).
  split; [exact Hpython|exact Hother].
Defined.

(** The hook returns, and ["python"] no longer resolves as it did before
    the hook: the resolver is not restored. *)
Lemma tox_testenv_create_resolver_not_restored :
  (tox_testenv_create demo_popen demo_clone_pdm_files
     (demo_venv false false) (demo_world true [])).1 = Ret true
  ∧ getcommandpath (demo_world true []) (demo_venv false false) "python"
    = "/usr/bin/python"
  ∧ getcommandpath
      (tox_testenv_create demo_popen demo_clone_pdm_files
         (demo_venv false false) (demo_world true [])).2
      (demo_venv false false) "python"
    ≠ getcommandpath (demo_world true []) (demo_venv false false) "python".
Proof.
  split; [by vm_compute|]. split; [by vm_compute|].
  vm_compute. discriminate.
Qed.

(** C4.  The groups list may name ["default"] twice; the hook removes the
    first occurrence only, and the install command it builds for
    [default, default, dev] contains the pair [--group default]. *)
Theorem install_deps_duplicate_default_group_flag :
  pcalls (tox_testenv_install_deps demo_popen demo_get_env_lib_path
            demo_host_install "posix" (demo_venv false true)
            (demo_world true ["default"; "default"; "dev"])).2
  = [["pdm"; "install"; "-p"; "/proj/.tox/py";
      "--group"; "default"; "--group"; "dev"; "--no-self"]].
Proof. by vm_compute. Qed.

(** C5.  With [skip_install] false and the groups list [default, default],
    the install command built by the hook contains the token ["default"],
    as the value of a [--group] flag for a group that is ["default"]. *)
Theorem install_deps_no_skip_duplicate_default :
  skip_install (envconfig (demo_venv false false)) = false
  ∧ pcalls (tox_testenv_install_deps demo_popen demo_get_env_lib_path
              demo_host_install "posix" (demo_venv false false)
              (demo_world true ["default"; "default"])).2
    = [["pdm"; "install"; "-p"; "/proj/.tox/py";
        "--group"; "default"; "--no-self"]].
Proof. by vm_compute. Qed.

(** C9.  The hook does work on the stored list, but one call removes one
    occurrence of ["default"]: from the stored list [default, default] the
    first call leaves [default] in the configuration, and the second call
    on the same environment observes a groups list that still contains
    ["default"] and reports it. *)
Theorem install_deps_second_call_sees_default :
  heap (tox_testenv_install_deps demo_popen demo_get_env_lib_path
          demo_host_install "posix" (demo_venv false false)
          (demo_world true ["default"; "default"])).2 !! 1%positive
  = Some ["default"]
  ∧ observed_groups (demo_venv false false)
      (tox_testenv_install_deps demo_popen demo_get_env_lib_path
         demo_host_install "posix" (demo_venv false false)
         (demo_world true ["default"; "default"])).2
    = ["default"]
  ∧ trace (invocations 2
             (tox_testenv_install_deps demo_popen demo_get_env_lib_path
                demo_host_install "posix" (demo_venv false false))
             (demo_world true ["default"; "default"])).2
    = [Activity "pdminstall" ["default"; "default"];
       Pcall ["pdm"; "install"; "-p"; "/proj/.tox/py";
              "--group"; "default"; "--no-self"] ["proj"];
       Activity "pdminstall" ["default"];
       Pcall ["pdm"; "install"; "-p"; "/proj/.tox/py"; "--no-self"] ["proj"]].
Proof. by vm_compute. Qed.

(** A build that leaves one archive returns it; a build that leaves the
    build directory empty ends in [StopIteration], and one that leaves no
    build directory in [OSError], also for the hook. *)
Lemma acquire_package_outcome_witness :
  (∃ d' stem',
     (acquire_package demo_popen demo_clone_pdm_files (demo_config false)
        (demo_venv false false) (demo_world true [])).1
     = Ret (["proj"; ".tox"; ".package"] ++ d' ++ [stem' +:+ ".tar.gz"]))
  ∧ (tox_package demo_popen_no_archive demo_clone_pdm_files demo_get_env_lib_path
       demo_create_session_view (demo_session false) (demo_venv false false)
       (demo_world true [])).1
    = Raise StopIteration
  ∧ (tox_package demo_popen_idle demo_clone_pdm_files demo_get_env_lib_path
       demo_create_session_view (demo_session false) (demo_venv false false)
       (demo_world true [])).1
    = Raise OSError.
Proof.
  split; [|split].
  - destruct (acquire_package_outcome demo_popen demo_clone_pdm_files
                demo_get_env_lib_path demo_create_session_view
                (demo_session false) (demo_venv false false) (demo_world true [])
                (build_sdist demo_popen demo_clone_pdm_files (demo_config false)
                   (demo_venv false false) (demo_world true [])).2)
      as [Hfirst _]; [by vm_compute|].
    destruct (Hfirst [] "demo-0.1") as (d' & stem' & rest & Hrun & _);
      [exists File; by vm_compute|].
    exists d', stem'. exact (f_equal fst Hrun).
  - destruct (acquire_package_outcome demo_popen_no_archive demo_clone_pdm_files
                demo_get_env_lib_path demo_create_session_view
                (demo_session false) (demo_venv false false)
                (acquire_lock ["proj"; ".tox"; ".package.lock"]
                   (demo_world true [])).2
                (build_sdist demo_popen_no_archive demo_clone_pdm_files
                   (demo_config false) (demo_venv false false)
                   (acquire_lock ["proj"; ".tox"; ".package.lock"]
                      (demo_world true [])).2).2)
      as (_ & Hnone & _); [by vm_compute|].
    destruct Hnone as (_ & _ & Hhook); [by vm_compute| |].
    { intros d stem. rewrite lookup_path_app.
      assert (lookup_path
                (toxworkdir (session_config (demo_session false))
                 ++ [isolated_build_env (session_config (demo_session false))])
                (fs (build_sdist demo_popen_no_archive demo_clone_pdm_files
                       (demo_config false) (demo_venv false false)
                       (acquire_lock ["proj"; ".tox"; ".package.lock"]
                          (demo_world true [])).2).2)
              = Some (Dir ∅)) as -> by (by vm_compute).
      by destruct d. }
    rewrite (Hhook (demo_world true []) (demo_fs true)); [done..|by vm_compute].
  - destruct (acquire_package_outcome demo_popen_idle demo_clone_pdm_files
                demo_get_env_lib_path demo_create_session_view
                (demo_session false) (demo_venv false false)
                (acquire_lock ["proj"; ".tox"; ".package.lock"]
                   (demo_world true [])).2
                (build_sdist demo_popen_idle demo_clone_pdm_files
                   (demo_config false) (demo_venv false false)
                   (acquire_lock ["proj"; ".tox"; ".package.lock"]
                      (demo_world true [])).2).2)
      as (_ & _ & Hmissing); [by vm_compute|].
    destruct Hmissing as (_ & _ & Hhook); [by vm_compute|].
    rewrite (Hhook (demo_world true []) (demo_fs true)); [done..|by vm_compute].
Defined.

(** The result need not be an archive of the build directory itself, and
    the failure need not be the exhaustion of the matches.  A build that
    leaves an older archive in a sub-directory returns that one, although
    the build directory holds the new archive; a build that leaves no
    build directory ends in [OSError], also for the hook. *)
Lemma acquire_package_nested_or_no_directory :
  lookup_path ["proj"; ".tox"; ".package"; "demo-0.1.tar.gz"]
    (fs (build_sdist demo_popen_nested demo_clone_pdm_files (demo_config false)
           (demo_venv false false) (demo_world true [])).2)
  = Some File
  ∧ (acquire_package demo_popen_nested demo_clone_pdm_files (demo_config false)
       (demo_venv false false) (demo_world true [])).1
    = Ret ["proj"; ".tox"; ".package"; "old"; "demo-0.0.tar.gz"]
  ∧ (build_sdist demo_popen_idle demo_clone_pdm_files (demo_config false)
       (demo_venv false false) (demo_world true [])).1
    = Ret tt
  ∧ exists_ ["proj"; ".tox"; ".package"]
      (fs (build_sdist demo_popen_idle demo_clone_pdm_files (demo_config false)
             (demo_venv false false) (demo_world true [])).2)
    = false
  ∧ (acquire_package demo_popen_idle demo_clone_pdm_files (demo_config false)
       (demo_venv false false) (demo_world true [])).1
    = Raise OSError
  ∧ (tox_package demo_popen_idle demo_clone_pdm_files demo_get_env_lib_path
       demo_create_session_view (demo_session false) (demo_venv false false)
       (demo_world true [])).1
    = Raise OSError.
Proof. by vm_compute. Qed.

(** The script [black] replaces the older file of its name in the scripts
    directory, and the directory [tools] is new there. *)
Lemma relocate_scripts_moves_entries_witness :
  lookup_path ["proj"; ".tox"; "py"; "bin"; "black"]
    (demo_fs_scripts {[ "black" := File ]})
  = Some File
  ∧ ∃ t',
      relocate_scripts demo_get_env_lib_path "posix" (demo_venv false false)
        (set_fs (demo_fs_scripts {[ "black" := File ]}) (demo_world true []))
      = (Ret tt,
         set_fs t' (set_fs (demo_fs_scripts {[ "black" := File ]})
                      (demo_world true [])))
      ∧ listdir ["proj"; ".tox"; "py"; "lib"; "bin"] t' = Some []
      ∧ lookup_path ["proj"; ".tox"; "py"; "bin"; "black"] t' = Some File
      ∧ lookup_path ["proj"; ".tox"; "py"; "bin"; "tools"] t'
        = Some (Dir {[ "run" := File ]}).
Proof.
  split; [reflexivity|].
  destruct (relocate_scripts_moves_entries demo_get_env_lib_path "posix"
              (demo_venv false false)
              (set_fs (demo_fs_scripts {[ "black" := File ]})
                 (demo_world true []))) as [Hmove _].
  destruct (Hmove demo_scripts) as (t' & Hrun & Hempty & Hmoved).
  - reflexivity.
  - reflexivity.
  - intros item x Hx. unfold demo_scripts in Hx.
    destruct (decide (item = "black")) as [->|Hblack].
    { right. rewrite lookup_insert_eq in Hx. injection Hx as <-.
      split; [reflexivity|]. split; [reflexivity|discriminate]. }
    left. destruct (decide (item = "tools")) as [->|Htools]; [reflexivity|].
    by rewrite lookup_insert_ne, lookup_singleton_ne in Hx.
  - exists t'. split; [exact Hrun|]. split; [exact Hempty|].
    split; apply Hmoved; reflexivity.
Defined.

(** Without a scripts directory the move of a script file raises: the
    hook fails, and the script is still in the [bin] directory.  So does
    the move of a directory of scripts when the scripts directory holds a
    file of its name. *)
Lemma relocate_scripts_failures :
  lookup_path ["proj"; ".tox"; "py"; "lib"; "bin"] (fs (demo_world false []))
  = Some (Dir {[ "black" := File ]})
  ∧ exists_ ["proj"; ".tox"; "py"; "bin"] (fs (demo_world false [])) = false
  ∧ (tox_testenv_install_deps demo_popen demo_get_env_lib_path
       demo_host_install "posix" (demo_venv false false)
       (demo_world false [])).1
    = Raise OSError
  ∧ listdir ["proj"; ".tox"; "py"; "lib"; "bin"]
      (fs (tox_testenv_install_deps demo_popen demo_get_env_lib_path
             demo_host_install "posix" (demo_venv false false)
             (demo_world false [])).2)
    = Some ["black"]
  ∧ lookup_path ["proj"; ".tox"; "py"; "bin"; "tools"]
      (demo_fs_scripts {[ "tools" := File ]})
    = Some File
  ∧ (tox_testenv_install_deps demo_popen demo_get_env_lib_path
       demo_host_install "posix" (demo_venv false false)
       (set_fs (demo_fs_scripts {[ "tools" := File ]}) (demo_world true []))).1
    = Raise OSError
  ∧ lookup_path ["proj"; ".tox"; "py"; "lib"; "bin"; "tools"]
      (fs (tox_testenv_install_deps demo_popen demo_get_env_lib_path
             demo_host_install "posix" (demo_venv false false)
             (set_fs (demo_fs_scripts {[ "tools" := File ]})
                (demo_world true []))).2)
    = Some (Dir {[ "run" := File ]}).
Proof. by vm_compute. Qed.

Lemma tox_package_skipsdist_TypeError_witness :
  skipsdist (session_config (demo_session true)) = true
  ∧ session_package (demo_world true []) = None
  ∧ (tox_package demo_popen demo_clone_pdm_files demo_get_env_lib_path
       demo_create_session_view (demo_session true) (demo_venv true false)
       (demo_world true [])).1
    = Raise TypeError.
Proof.
  split; [reflexivity|]. split; [reflexivity|].
  by destruct (tox_package_skipsdist_TypeError demo_popen demo_clone_pdm_files
                 demo_get_env_lib_path demo_create_session_view
                 (demo_session true) (demo_venv true false) (demo_world true [])
                 (demo_fs true) eq_refl eq_refl eq_refl) as [Hraise _].
Defined.

(** Three calls of each hook leave three copies of its flag. *)
Lemma command_lists_grow_witness :
  heap (invocations 3 (tox_runenvreport demo_get_env_lib_path (demo_venv false false))
          (demo_world true [])).2 !! 3%positive
  = Some ["/proj/.tox/py/bin/python"; "-m"; "pip"; "freeze";
          "--path"; "/proj/.tox/py/lib"; "--path"; "/proj/.tox/py/lib";
          "--path"; "/proj/.tox/py/lib"]
  ∧ heap (invocations 3
            (tox_package demo_popen demo_clone_pdm_files demo_get_env_lib_path
               demo_create_session_view (demo_session false) (demo_venv false false))
            (demo_world true [])).2 !! 2%positive
    = Some ["/proj/.tox/py/bin/python"; "-m"; "pip"; "install";
            "-t"; "/proj/.tox/py/lib"; "-t"; "/proj/.tox/py/lib";
            "-t"; "/proj/.tox/py/lib"].
Proof.
  destruct (command_lists_grow demo_popen demo_clone_pdm_files
              demo_get_env_lib_path demo_create_session_view
              (demo_session false) (demo_venv false false) (demo_world true []) 3
              ["python"; "-m"; "pip"; "freeze"] ["python"; "-m"; "pip"; "install"]
              eq_refl eq_refl) as ((_ & Hreport) & Hpackage & _).
  split; [exact Hreport|]. apply Hpackage. by vm_compute.
Defined.

(** After the environments [py] and [lint] have been created in this
    order, [py] too resolves ["python"] to the interpreter of [lint]. *)
Lemma tox_testenv_create_latest_interpreter_witness :
  getcommandpath
    (tox_testenv_create demo_popen demo_clone_pdm_files demo_venv_other
       (tox_testenv_create demo_popen demo_clone_pdm_files (demo_venv false false)
          (demo_world true [])).2).2
    (demo_venv false false) "python"
  = "/proj/.tox/lint/bin/python"
  ∧ getcommandpath
      (tox_testenv_create demo_popen demo_clone_pdm_files demo_venv_other
         (tox_testenv_create demo_popen demo_clone_pdm_files (demo_venv false false)
            (demo_world true [])).2).2
      (demo_venv false false) "pip"
    = "/usr/bin/pip".
Proof.
  destruct (tox_testenv_create_latest_interpreter demo_popen demo_clone_pdm_files
              (demo_venv false false) demo_venv_other (demo_world true [])
              (demo_fs true) (demo_fs true) eq_refl eq_refl) as [Hpython Hother].
  split; [apply Hpython|]. by rewrite Hother.
Defined.

Lemma install_deps_heap_witness :
  heap (tox_testenv_install_deps demo_popen demo_get_env_lib_path
          demo_host_install "posix" (demo_venv false false)
          (demo_world true ["default"; "dev"])).2
  = <[1%positive := ["dev"]]> (heap (demo_world true ["default"; "dev"])).
Proof.
  destruct (install_deps_heap demo_popen demo_get_env_lib_path demo_host_install
              "posix" (demo_venv false false)
              (demo_world true ["default"; "dev"])) as [Hstored _].
  by apply (Hstored 1%positive ["default"; "dev"]).
Defined.

Lemma install_deps_second_call_witness :
  pcalls (tox_testenv_install_deps demo_popen demo_get_env_lib_path
            demo_host_install "posix" (demo_venv false true)
            (tox_testenv_install_deps demo_popen demo_get_env_lib_path
               demo_host_install "posix" (demo_venv false true)
               (demo_world true ["default"; "dev"])).2).2
  = [["pdm"; "install"; "-p"; "/proj/.tox/py"; "--group"; "dev"; "--no-self"];
     ["pdm"; "install"; "-p"; "/proj/.tox/py"; "--no-default";
      "--group"; "dev"; "--no-self"]].
Proof.
  destruct (install_deps_second_call demo_popen demo_clone_pdm_files
              demo_get_env_lib_path demo_host_install demo_create_session_view
              "posix" (demo_venv false true)
              (demo_world true ["default"; "dev"]) 1%positive [] ["dev"]
              eq_refl eq_refl eq_refl) as [Hfirst Hsecond].
  - apply not_elem_of_nil.
  - apply (bool_decide_eq_false_1 _). by vm_compute.
  - rewrite Hsecond, Hfirst. reflexivity.
Defined.

(** The environment tracks two dependencies, and the failed call is the
    last event all the same. *)
Lemma install_deps_subprocess_failure_witness :
  (tox_testenv_install_deps demo_popen_failing demo_get_env_lib_path
     demo_host_install "posix" demo_venv_tracked
     (demo_world true ["dev"])).1
  = Raise InvocationError
  ∧ trace (tox_testenv_install_deps demo_popen_failing demo_get_env_lib_path
             demo_host_install "posix" demo_venv_tracked
             (demo_world true ["dev"])).2
    = [Activity "pdminstall" ["dev"];
       Pcall ["pdm"; "install"; "-p"; "/proj/.tox/py"; "--group"; "dev"; "--no-self"]
             ["proj"]].
Proof.
  destruct (install_deps_subprocess_failure demo_popen_failing
              demo_get_env_lib_path demo_host_install "posix"
              demo_venv_tracked (demo_world true ["dev"])
              eq_refl eq_refl) as [Hraise Htrace].
  split; [by rewrite Hraise|]. by rewrite Htrace.
Defined.

Lemma tox_package_cached_witness :
  (tox_package demo_popen demo_clone_pdm_files demo_get_env_lib_path
     demo_create_session_view (demo_session false) (demo_venv false false)
     (set_session (Some ["proj"; ".tox"; ".tmp"; "1"; "demo-0.1.tar.gz"])
        (Some ["proj"; ".tox"; ".package"; "demo-0.1.tar.gz"])
        (demo_world true []))).1
  = Ret (Some ["proj"; ".tox"; ".tmp"; "1"; "demo-0.1.tar.gz"])
  ∧ trace
      (tox_package demo_popen demo_clone_pdm_files demo_get_env_lib_path
         demo_create_session_view (demo_session false) (demo_venv false false)
         (set_session (Some ["proj"; ".tox"; ".tmp"; "1"; "demo-0.1.tar.gz"])
            (Some ["proj"; ".tox"; ".package"; "demo-0.1.tar.gz"])
            (demo_world true []))).2
    = [].
Proof.
  destruct (tox_package_cached demo_popen demo_clone_pdm_files
              demo_get_env_lib_path demo_create_session_view
              (demo_session false) (demo_venv false false)
              (set_session (Some ["proj"; ".tox"; ".tmp"; "1"; "demo-0.1.tar.gz"])
                 (Some ["proj"; ".tox"; ".package"; "demo-0.1.tar.gz"])
                 (demo_world true []))
              ["proj"; ".tox"; ".tmp"; "1"; "demo-0.1.tar.gz"] (demo_fs true)
              ["python"; "-m"; "pip"; "install"] eq_refl eq_refl eq_refl)
    as [Hrun Htrace].
  split; [by rewrite Hrun|exact Htrace].
Defined.

Lemma tox_package_builds_witness :
  (tox_package demo_popen demo_clone_pdm_files demo_get_env_lib_path
     demo_create_session_view (demo_session false) (demo_venv false false)
     (demo_world true [])).1
  = Ret (Some ["proj"; ".tox"; ".tmp"; "1"; "demo-0.1.tar.gz"])
  ∧ session_dist
      (tox_package demo_popen demo_clone_pdm_files demo_get_env_lib_path
         demo_create_session_view (demo_session false) (demo_venv false false)
         (demo_world true [])).2
    = Some ["proj"; ".tox"; ".package"; "demo-0.1.tar.gz"]
  ∧ held_locks
      (tox_package demo_popen demo_clone_pdm_files demo_get_env_lib_path
         demo_create_session_view (demo_session false) (demo_venv false false)
         (demo_world true [])).2
    = [].
Proof.
  destruct (tox_package_builds demo_popen demo_clone_pdm_files
              demo_get_env_lib_path demo_create_session_view
              (demo_session false) (demo_venv false false) (demo_world true [])
              (acquire_lock ["proj"; ".tox"; ".package.lock"] (demo_world true [])).2
              (acquire_package demo_popen demo_clone_pdm_files (demo_config false)
                 (demo_venv false false)
                 (acquire_lock ["proj"; ".tox"; ".package.lock"]
                    (demo_world true [])).2).2
              (demo_fs true)
              (fs (acquire_package demo_popen demo_clone_pdm_files
                     (demo_config false) (demo_venv false false)
                     (acquire_lock ["proj"; ".tox"; ".package.lock"]
                        (demo_world true [])).2).2)
              ["proj"; ".tox"; ".package"; "demo-0.1.tar.gz"]
              ["proj"; ".tox"; ".tmp"; "1"; "demo-0.1.tar.gz"]
              ["python"; "-m"; "pip"; "install"])
    as (Hret & _ & Hdist & _ & Hlocks & _);
    [reflexivity|reflexivity|reflexivity|by vm_compute|by vm_compute
    |by vm_compute|reflexivity|].
  split; [exact Hret|]. split; [exact Hdist|]. by rewrite Hlocks.
Defined.

Lemma tox_package_failure_untouched_witness :
  heap (tox_package demo_popen demo_clone_pdm_files demo_get_env_lib_path
          demo_create_session_view (demo_session true) (demo_venv true false)
          (demo_world true [])).2
  = heap (demo_world true [])
  ∧ session_package
      (tox_package demo_popen_failing demo_clone_pdm_files demo_get_env_lib_path
         demo_create_session_view (demo_session false) (demo_venv false false)
         (demo_world true [])).2
    = None.
Proof.
  split.
  - by destruct (tox_package_failure_untouched demo_popen demo_clone_pdm_files
                   demo_get_env_lib_path demo_create_session_view
                   (demo_session true) (demo_venv true false) (demo_world true [])
                   TypeError) as [Hheap _]; [by vm_compute|].
  - by destruct (tox_package_failure_untouched demo_popen_failing
                   demo_clone_pdm_files demo_get_env_lib_path
                   demo_create_session_view (demo_session false)
                   (demo_venv false false) (demo_world true [])
                   InvocationError) as (_ & Hpackage & _); [by vm_compute|].
Defined.

Lemma tox_package_releases_lock_witness :
  ["proj"; ".tox"; ".package.lock"]
  ∉ held_locks
      (tox_package demo_popen_failing demo_clone_pdm_files demo_get_env_lib_path
         demo_create_session_view (demo_session false) (demo_venv false false)
         (demo_world true [])).2.
Proof.
  apply (tox_package_releases_lock demo_popen_failing demo_clone_pdm_files
           demo_get_env_lib_path demo_create_session_view
           (demo_session false) (demo_venv false false) (demo_world true [])).
  apply not_elem_of_nil.
Defined.

Lemma acquire_package_result_witness :
  ∃ d stem,
    ["proj"; ".tox"; ".package"; "demo-0.1.tar.gz"]
    = ["proj"; ".tox"; ".package"] ++ d ++ [stem +:+ ".tar.gz"].
Proof.
  destruct (acquire_package_result demo_popen demo_clone_pdm_files
              (demo_config false) (demo_venv false false) (demo_world true [])
              (acquire_package demo_popen demo_clone_pdm_files (demo_config false)
                 (demo_venv false false) (demo_world true [])).2
              ["proj"; ".tox"; ".package"; "demo-0.1.tar.gz"])
    as (d & stem & Hp & _); [by vm_compute|].
  by exists d, stem.
Defined.

Lemma build_sdist_subprocesses_witness :
  trace (build_sdist demo_popen demo_clone_pdm_files (demo_config false)
           (demo_venv false false) (demo_world true [])).2
  = [NewAction "buildpkg";
     Pcall ["pdm"; "use"; "-f"; "/proj/.tox/py/bin/python"] ["proj"; ".tox"; "py"];
     Pcall ["pdm"; "build"; "--no-wheel"; "-d"; "/proj/.tox/.package"] ["proj"]].
Proof.
  by destruct (build_sdist_subprocesses demo_popen demo_clone_pdm_files
                 (demo_config false) (demo_venv false false) (demo_world true [])
                 (build_sdist demo_popen demo_clone_pdm_files (demo_config false)
                    (demo_venv false false) (demo_world true [])).2)
    as [Htrace _]; [by vm_compute|].
Defined.

Lemma relocate_scripts_frame_witness :
  lookup_path ["proj"; "pyproject.toml"]
    (fs (relocate_scripts demo_get_env_lib_path "posix" (demo_venv false false)
           (demo_world true [])).2)
  = Some File.
Proof.
  rewrite (relocate_scripts_frame demo_get_env_lib_path "posix"
             (demo_venv false false) (demo_world true []) demo_scripts
             ["proj"; "pyproject.toml"]); [reflexivity|reflexivity|reflexivity| | | | |].
  - intros item x Hx. left. unfold demo_scripts in Hx.
    destruct (decide (item = "black")) as [->|Hblack]; [reflexivity|].
    destruct (decide (item = "tools")) as [->|Htools]; [reflexivity|].
    by rewrite lookup_insert_ne, lookup_singleton_ne in Hx.
  - apply (bool_decide_eq_false_1 _). by vm_compute.
  - apply (bool_decide_eq_false_1 _). by vm_compute.
  - apply (bool_decide_eq_false_1 _). by vm_compute.
  - apply (bool_decide_eq_false_1 _). by vm_compute.
Defined.

Lemma tox_runenvreport_replaces_every_python_witness :
  ∃ cmd',
    heap (tox_runenvreport demo_get_env_lib_path (demo_venv false false)
            (demo_world true [])).2 !! 3%positive
    = Some cmd'
    ∧ ("python" ∉ cmd')
    ∧ cmd' !! 0 = Some "/proj/.tox/py/bin/python".
Proof.
  destruct (tox_runenvreport_replaces_every_python demo_get_env_lib_path
              (demo_venv false false) (demo_world true [])
              ["python"; "-m"; "pip"; "freeze"] eq_refl)
    as (cmd' & Hcmd' & Hnone & _ & _ & Hpython & _); [discriminate|].
  exists cmd'. split; [exact Hcmd'|]. split; [exact Hnone|].
  by apply Hpython.
Defined.

Lemma relocate_scripts_idempotent_witness :
  relocate_scripts demo_get_env_lib_path "posix" (demo_venv false false)
    (relocate_scripts demo_get_env_lib_path "posix" (demo_venv false false)
       (demo_world true [])).2
  = (Ret tt,
     (relocate_scripts demo_get_env_lib_path "posix" (demo_venv false false)
        (demo_world true [])).2).
Proof.
  apply (relocate_scripts_idempotent demo_get_env_lib_path "posix"
           (demo_venv false false) (demo_world true []) demo_scripts);
    [reflexivity|reflexivity|].
  intros item x Hx. left. unfold demo_scripts in Hx.
  destruct (decide (item = "black")) as [->|Hblack]; [reflexivity|].
  destruct (decide (item = "tools")) as [->|Htools]; [reflexivity|].
  by rewrite lookup_insert_ne, lookup_singleton_ne in Hx.
Defined.

(** The environment that tracks [pytest]: after [pdm install], the host
    installs it with the stored install command. *)
Lemma install_deps_host_install_witness :
  trace (tox_testenv_install_deps demo_popen demo_get_env_lib_path
           demo_host_install "posix" demo_venv_tracked (demo_world true ["dev"])).2
  = [Activity "pdminstall" ["dev"];
     Pcall ["pdm"; "install"; "-p"; "/proj/.tox/py"; "--group"; "dev"; "--no-self"]
           ["proj"];
     Activity "installdeps" ["pytest, coverage"];
     HostInstall ["python"; "-m"; "pip"; "install"] ["pytest"; "coverage"]].
Proof.
  rewrite (install_deps_host_install demo_popen demo_get_env_lib_path
             demo_host_install "posix" demo_venv_tracked (demo_world true ["dev"])
             (pdm_install demo_popen demo_venv_tracked (demo_world true ["dev"])).2);
    by vm_compute.
Defined.
